(** * aregalo: the present-list registry

    A shallow embedding of [aregalo/schema.py], [aregalo/store.py] and
    [aregalo/service.py], and the properties of the service operations.

    Python values are modelled as follows: [int] is [Z] (unbounded),
    [str] is [string], [Optional[x]] is [option x], [List[x]] is [list x],
    a [Dict[str, x]] is a [gmap string x].  A service method is a
    computation over the store that either returns a value or raises;
    what it wrote before raising stays written. *)

From stdpp Require Import gmap strings list fin_maps pretty.

Open Scope Z_scope.

(** ** schema.py: the dataclasses *)

Module User.
Record t := mk {
  name : string;
  alias : string;
  icon : string;
  present_id : Z
}.
End User.

Module Present.
Record t := mk {
  id : Z;
  title : string;
  description : string;
  link : option string;
  price : option Z;
  favourite : bool;
  assigned_to : list string
}.
End Present.

Module UserData.
Record t := mk {
  name : string;
  alias : string;
  icon : string
}.
End UserData.

Module PresentCreateData.
Record t := mk {
  title : string;
  description : string;
  link : option string;
  price : option Z;
  favourite : bool
}.
End PresentCreateData.

Module PresentWishData.
Record t := mk {
  id : Z;
  title : string;
  description : string;
  link : option string;
  price : option Z;
  favourite : bool
}.
End PresentWishData.

Module PresentGiftData.
Record t := mk {
  id : Z;
  title : string;
  description : string;
  link : option string;
  price : option Z;
  favourite : bool;
  assigned_to : list string
}.
End PresentGiftData.

(** Dataclasses compare field by field ([==]); [list.index] relies on it. *)
#[global] Instance User_eq_dec : EqDecision User.t.
Proof. solve_decision. Defined.

#[global] Instance Present_eq_dec : EqDecision Present.t.
Proof. solve_decision. Defined.

#[global] Instance PresentWishData_eq_dec : EqDecision PresentWishData.t.
Proof. solve_decision. Defined.

#[global] Instance PresentGiftData_eq_dec : EqDecision PresentGiftData.t.
Proof. solve_decision. Defined.

(** [User.to_user_data] *)
Definition User_to_user_data (self : User.t) : UserData.t :=
  UserData.mk (User.name self) (User.alias self) (User.icon self).

(** [UserData.to_user] *)
Definition UserData_to_user (self : UserData.t) (present_id : Z) : User.t :=
  User.mk (UserData.name self) (UserData.alias self) (UserData.icon self)
          present_id.

(** [Present.to_present_wish_response] *)
Definition Present_to_present_wish_response (self : Present.t)
  : PresentWishData.t :=
  PresentWishData.mk (Present.id self) (Present.title self)
    (Present.description self) (Present.link self) (Present.price self)
    (Present.favourite self).

(** [Present.to_present_gift_response] *)
Definition Present_to_present_gift_response (self : Present.t)
  : PresentGiftData.t :=
  PresentGiftData.mk (Present.id self) (Present.title self)
    (Present.description self) (Present.link self) (Present.price self)
    (Present.favourite self) (Present.assigned_to self).

(** [PresentCreateData.to_present] *)
Definition PresentCreateData_to_present (self : PresentCreateData.t)
    (id : Z) (assigned_to : list string) : Present.t :=
  Present.mk id (PresentCreateData.title self)
    (PresentCreateData.description self) (PresentCreateData.link self)
    (PresentCreateData.price self) (PresentCreateData.favourite self)
    assigned_to.

(** [PresentWishData.to_present]: the id is the one the data carries. *)
Definition PresentWishData_to_present (self : PresentWishData.t)
    (assigned_to : list string) : Present.t :=
  Present.mk (PresentWishData.id self) (PresentWishData.title self)
    (PresentWishData.description self) (PresentWishData.link self)
    (PresentWishData.price self) (PresentWishData.favourite self)
    assigned_to.

(** [PresentGiftData.to_present] *)
Definition PresentGiftData_to_present (self : PresentGiftData.t) : Present.t :=
  Present.mk (PresentGiftData.id self) (PresentGiftData.title self)
    (PresentGiftData.description self) (PresentGiftData.link self)
    (PresentGiftData.price self) (PresentGiftData.favourite self)
    (PresentGiftData.assigned_to self).

(** Attribute assignment on a dataclass object. *)
Definition User_set_present_id (self : User.t) (v : Z) : User.t :=
  User.mk (User.name self) (User.alias self) (User.icon self) v.

Definition Present_set_assigned_to (self : Present.t) (v : list string)
  : Present.t :=
  Present.mk (Present.id self) (Present.title self) (Present.description self)
    (Present.link self) (Present.price self) (Present.favourite self) v.

(** ** store.py: [FileStore]

    The store keeps the two dictionaries in memory ([_users], [_presents])
    and rewrites the matching YAML file from the dictionary on every
    upsert or delete ([users_yml], [presents_yml] are the contents last
    written, or the contents loaded at start-up).

    The dictionaries hold objects.  [_load_users] and [_load_presents]
    build one object per key, and a list is only ever stored back under
    the key it was read from, so the dictionaries are modelled as maps of
    values.  A mutation of an object obtained from the store is visible in
    the store at once: it is written into the in-memory dictionary at the
    key the object was read from ([mutate_user], [mutate_presents]),
    before and independently of any upsert.

    [upsert_user] files a user under [user.name].  When that is not the
    key the user was read from, Python has the two keys share one object
    from then on, and a later assignment to [present_id] through either
    key shows under both; the map of values gives both keys the same
    record when the upsert is made and afterwards updates only the key the
    record is reached through.  So the map is exact on a store as loaded,
    for the record and the list of the user an operation is about, and
    for every record as long as users are filed under their own name
    ([named_by_key] below), where no two keys ever share an object; what
    is stated about the records of other users carries that condition. *)

Module FileStore.
Record t := mk {
  _users : gmap string User.t;
  _presents : gmap string (list Present.t);
  users_yml : gmap string User.t;
  presents_yml : gmap string (list Present.t)
}.

Definition _save_users (self : t) : t :=
  mk (_users self) (_presents self) (_users self) (presents_yml self).

Definition _save_presents (self : t) : t :=
  mk (_users self) (_presents self) (users_yml self) (_presents self).

(** [__init__]: both dictionaries are loaded from the files. *)
Definition init (users : gmap string User.t)
    (presents : gmap string (list Present.t)) : t :=
  mk users presents users presents.

(** The order of [dict.items()] is not tracked by the map. *)
Definition get_users (self : t) : list User.t :=
  (map_to_list (_users self)).*2.

Definition get_user (name : string) (self : t) : option User.t :=
  _users self !! name.

Definition upsert_user (user : User.t) (self : t) : t :=
  _save_users
    (mk (<[User.name user := user]> (_users self)) (_presents self)
        (users_yml self) (presents_yml self)).

Definition delete_user (name : string) (self : t) : t :=
  if decide (is_Some (_users self !! name)) then
    _save_users
      (mk (delete name (_users self)) (_presents self)
          (users_yml self) (presents_yml self))
  else self.

Definition get_presents (name : string) (self : t)
  : option (list Present.t) :=
  _presents self !! name.

Definition upsert_presents (name : string) (presents : list Present.t)
    (self : t) : t :=
  _save_presents
    (mk (_users self) (<[name := presents]> (_presents self))
        (users_yml self) (presents_yml self)).

Definition delete_presents (name : string) (self : t) : t :=
  if decide (is_Some (_presents self !! name)) then
    _save_presents
      (mk (_users self) (delete name (_presents self))
          (users_yml self) (presents_yml self))
  else self.

(** In-place mutation of the user object held under [key], as seen
    through that key. *)
Definition mutate_user (key : string) (user : User.t) (self : t) : t :=
  mk (<[key := user]> (_users self)) (_presents self)
     (users_yml self) (presents_yml self).

(** In-place mutation of the list object held under [key]. *)
Definition mutate_presents (key : string) (presents : list Present.t)
    (self : t) : t :=
  mk (_users self) (<[key := presents]> (_presents self))
     (users_yml self) (presents_yml self).
End FileStore.

(** ** Exceptions and the service monad *)

Inductive exn :=
  | HTTPException (status_code : Z) (detail : string)
  | TypeError
  | AttributeError
  | IndexError
  | ValueError.

Inductive outcome (A : Type) :=
  | Return (a : A)
  | Raise (e : exn).
Arguments Return {A} a.
Arguments Raise {A} e.

Definition M (A : Type) : Type := FileStore.t → outcome A * FileStore.t.

#[global] Instance M_ret : MRet M := λ A a s, (Return a, s).

#[global] Instance M_bind : MBind M := λ A B f m s,
  match m s with
  | (Return a, s') => f a s'
  | (Raise e, s') => (Raise e, s')
  end.

Definition raise {A} (e : exn) : M A := λ s, (Raise e, s).

(** A store method that only reads. *)
Definition call {A} (f : FileStore.t → A) : M A := λ s, (Return (f s), s).

(** A store method (or an in-place mutation) that only writes. *)
Definition exec (f : FileStore.t → FileStore.t) : M unit :=
  λ s, (Return tt, f s).

(** [http.HTTPStatus.NOT_FOUND] *)
Definition NOT_FOUND : Z := 404.

Definition dquote : string := String (Ascii.ascii_of_nat 34) EmptyString.

(** The two not-found errors the service raises, with their messages. *)
Definition UserNotFound (user : string) : exn :=
  HTTPException NOT_FOUND
    ("No user with name " +:+ dquote +:+ user +:+ dquote).

Definition PresentNotFound (user : string) (present_id : Z) : exn :=
  HTTPException NOT_FOUND
    ("No present with id " +:+ dquote +:+ pretty present_id +:+ dquote
     +:+ " for user " +:+ dquote +:+ user +:+ dquote).

(** ** Python list operations *)

(** [l.index(x)]: position of the first element equal to [x]. *)
Definition index {A} `{EqDecision A} (x : A) (l : list A) : option nat :=
  fst <$> list_find (λ y, y = x) l.

(** [l[i]] *)
Definition getitem {A} (l : list A) (i : nat) : M A :=
  match l !! i with
  | Some x => mret x
  | None => raise IndexError
  end.

(** [l[i] = x] *)
Definition setitem {A} (l : list A) (i : nat) (x : A) : M (list A) :=
  if decide (i < length l)%nat then mret (<[i := x]> l) else raise IndexError.

(** [del l[i]] *)
Definition delitem {A} (l : list A) (i : nat) : M (list A) :=
  if decide (i < length l)%nat then mret (delete i l) else raise IndexError.

(** [l.remove(x)] on success: the first occurrence goes. *)
Fixpoint remove_first {A} `{EqDecision A} (x : A) (l : list A) : list A :=
  match l with
  | [] => []
  | y :: l' => if decide (y = x) then l' else y :: remove_first x l'
  end.

(** [l.remove(x)] *)
Definition list_remove_item {A} `{EqDecision A} (l : list A) (x : A)
  : M (list A) :=
  if decide (x ∈ l) then mret (remove_first x l) else raise ValueError.

(** ** service.py: [StoreService] *)

Definition get_all_users : M (list UserData.t) :=
  users ← call FileStore.get_users;
  mret (User_to_user_data <$> users).

Definition get_user_data (user : string) : M UserData.t :=
  store_user ← call (FileStore.get_user user);
  match store_user with
  | None => raise (UserNotFound user)
  | Some store_user => mret (User_to_user_data store_user)
  end.

Definition get_user_present_wish_list (user : string)
  : M (list PresentWishData.t) :=
  store_presents ← call (FileStore.get_presents user);
  match store_presents with
  | None => raise (UserNotFound user)
  | Some store_presents =>
      mret (Present_to_present_wish_response <$> store_presents)
  end.

Definition get_user_present_gift_list (user : string)
  : M (list PresentGiftData.t) :=
  store_presents ← call (FileStore.get_presents user);
  match store_presents with
  | None => raise (UserNotFound user)
  | Some store_presents =>
      mret (Present_to_present_gift_response <$> store_presents)
  end.

(** [wish_user.present_id] on [None] and [presents.append] on [None] raise
    [AttributeError]. *)
Definition create_present (user : string) (present : PresentCreateData.t)
  : M (list PresentWishData.t) :=
  wish_user ← call (FileStore.get_user user);
  match wish_user with
  | None => raise AttributeError
  | Some wish_user =>
      let present_id := User.present_id wish_user in
      let wish_user := User_set_present_id wish_user (present_id + 1) in
      exec (FileStore.mutate_user user wish_user);;
      exec (FileStore.upsert_user wish_user);;
      presents ← call (FileStore.get_presents user);
      match presents with
      | None => raise AttributeError
      | Some presents =>
          let presents :=
            presents ++ [PresentCreateData_to_present present present_id []] in
          exec (FileStore.mutate_presents user presents);;
          exec (FileStore.upsert_presents user presents);;
          mret (Present_to_present_wish_response <$> presents)
      end
  end.

(** [filter(..., None)] raises [TypeError]. *)
Definition find_present_in_list_by_id (user : string) (present_id : Z)
  : M (list Present.t * Present.t * nat) :=
  presents ← call (FileStore.get_presents user);
  match presents with
  | None => raise TypeError
  | Some presents =>
      match head (filter (λ p, Present.id p = present_id) presents) with
      | None => raise (PresentNotFound user present_id)
      | Some found_present =>
          match index found_present presents with
          | None => raise ValueError
          | Some i => mret (presents, found_present, i)
          end
      end
  end.

Definition update_present (user : string) (present_id : Z)
    (present : PresentWishData.t) : M (list PresentWishData.t) :=
  '(presents, found_present, found_present_index) ←
    find_present_in_list_by_id user present_id;
  presents ← setitem presents found_present_index
    (PresentWishData_to_present present (Present.assigned_to found_present));
  exec (FileStore.mutate_presents user presents);;
  exec (FileStore.upsert_presents user presents);;
  mret (Present_to_present_wish_response <$> presents).

Definition delete_present (user : string) (present_id : Z)
  : M (list PresentWishData.t) :=
  '(presents, found_present, found_present_index) ←
    find_present_in_list_by_id user present_id;
  presents ← delitem presents found_present_index;
  exec (FileStore.mutate_presents user presents);;
  exec (FileStore.upsert_presents user presents);;
  mret (Present_to_present_wish_response <$> presents).

Definition assign_user_to_present (user : string) (present_id : Z)
    (gifter : string) : M (list PresentGiftData.t) :=
  '(presents, found_present, found_present_index) ←
    find_present_in_list_by_id user present_id;
  p ← getitem presents found_present_index;
  if decide (gifter ∉ Present.assigned_to p) then
    let p := Present_set_assigned_to p (Present.assigned_to p ++ [gifter]) in
    let presents := <[found_present_index := p]> presents in
    exec (FileStore.mutate_presents user presents);;
    exec (FileStore.upsert_presents user presents);;
    mret (Present_to_present_gift_response <$> presents)
  else
    mret (Present_to_present_gift_response <$> presents).

Definition remove_user_from_present (user : string) (present_id : Z)
    (gifter : string) : M (list PresentGiftData.t) :=
  '(presents, found_present, found_present_index) ←
    find_present_in_list_by_id user present_id;
  p ← getitem presents found_present_index;
  if decide (gifter ∈ Present.assigned_to p) then
    assigned_to ← list_remove_item (Present.assigned_to p) gifter;
    let p := Present_set_assigned_to p assigned_to in
    let presents := <[found_present_index := p]> presents in
    exec (FileStore.mutate_presents user presents);;
    exec (FileStore.upsert_presents user presents);;
    mret (Present_to_present_gift_response <$> presents)
  else
    mret (Present_to_present_gift_response <$> presents).


(** ** main.py: the routes

    Each route calls one service method; the assignment routes take the
    gifter first and pass the wisher as the list's owner. *)

Inductive request :=
  | Get_users
  | Get_user (user : string)
  | Get_present_wish_list (user : string)
  | Create_present (user : string) (present_data : PresentCreateData.t)
  | Update_present (user : string) (present_id : Z)
      (present_data : PresentWishData.t)
  | Delete_present (user : string) (present_id : Z)
  | Get_present_gift_list (wisher : string)
  | Assign_user_to_present (gifter wisher : string) (present_id : Z)
  | Remove_user_from_present (gifter wisher : string) (present_id : Z).

Inductive response :=
  | UserList (users : list UserData.t)
  | UserView (user : UserData.t)
  | WishList (presents : list PresentWishData.t)
  | GiftList (presents : list PresentGiftData.t).

Definition handle (r : request) : M response :=
  match r with
  | Get_users => v ← get_all_users; mret (UserList v)
  | Get_user user => v ← get_user_data user; mret (UserView v)
  | Get_present_wish_list user =>
      v ← get_user_present_wish_list user; mret (WishList v)
  | Create_present user present_data =>
      v ← create_present user present_data; mret (WishList v)
  | Update_present user present_id present_data =>
      v ← update_present user present_id present_data; mret (WishList v)
  | Delete_present user present_id =>
      v ← delete_present user present_id; mret (WishList v)
  | Get_present_gift_list wisher =>
      v ← get_user_present_gift_list wisher; mret (GiftList v)
  | Assign_user_to_present gifter wisher present_id =>
      v ← assign_user_to_present wisher present_id gifter; mret (GiftList v)
  | Remove_user_from_present gifter wisher present_id =>
      v ← remove_user_from_present wisher present_id gifter; mret (GiftList v)
  end.

(** Serving requests one after the other; a request that raises is
    answered with the error and the next one is served from the store as
    the failed one left it. *)
Fixpoint serve_all (rs : list request) (s : FileStore.t) : FileStore.t :=
  match rs with
  | [] => s
  | r :: rs => serve_all rs (handle r s).2
  end.






Definition is_create (r : request) : bool :=
  match r with Create_present _ _ => true | _ => false end.



(** ** The lookup by id *)

(** Position and value of the first present with the given id. *)
Definition first_with_id (present_id : Z) (presents : list Present.t)
  : option (nat * Present.t) :=
  list_find (λ p, Present.id p = present_id) presents.

(** ** What a request writes

    [written r s s'] lists the ways in which serving [r] from store [s]
    can leave store [s']: nothing is written; or the owner's list is
    upserted with one entry rewritten, removed or appended; or, for a
    creation, the owner's counter is stepped and upserted, alone when the
    owner has no present list. *)

Inductive written : request → FileStore.t → FileStore.t → Prop :=
  | written_nothing r s :
      written r s s
  | written_update user present_id present_data s presents i q :
      FileStore.get_presents user s = Some presents →
      first_with_id present_id presents = Some (i, q) →
      written (Update_present user present_id present_data) s
        (FileStore.upsert_presents user
           (<[i := PresentWishData_to_present present_data
                     (Present.assigned_to q)]> presents) s)
  | written_delete user present_id s presents i q :
      FileStore.get_presents user s = Some presents →
      first_with_id present_id presents = Some (i, q) →
      written (Delete_present user present_id) s
        (FileStore.upsert_presents user (delete i presents) s)
  | written_assign gifter user present_id s presents i q :
      FileStore.get_presents user s = Some presents →
      first_with_id present_id presents = Some (i, q) →
      gifter ∉ Present.assigned_to q →
      written (Assign_user_to_present gifter user present_id) s
        (FileStore.upsert_presents user
           (<[i := Present_set_assigned_to q
                     (Present.assigned_to q ++ [gifter])]> presents) s)
  | written_remove gifter user present_id s presents i q :
      FileStore.get_presents user s = Some presents →
      first_with_id present_id presents = Some (i, q) →
      gifter ∈ Present.assigned_to q →
      written (Remove_user_from_present gifter user present_id) s
        (FileStore.upsert_presents user
           (<[i := Present_set_assigned_to q
                     (remove_first gifter (Present.assigned_to q))]> presents)
           s)
  | written_counter user present_data s wish_user :
      FileStore.get_user user s = Some wish_user →
      FileStore.get_presents user s = None →
      written (Create_present user present_data) s
        (FileStore.upsert_user
           (User_set_present_id wish_user (User.present_id wish_user + 1))
           (FileStore.mutate_user user
              (User_set_present_id wish_user (User.present_id wish_user + 1))
              s))
  | written_create user present_data s wish_user presents :
      FileStore.get_user user s = Some wish_user →
      FileStore.get_presents user s = Some presents →
      written (Create_present user present_data) s
        (FileStore.upsert_presents user
           (presents ++ [PresentCreateData_to_present present_data
                           (User.present_id wish_user) []])
           (FileStore.upsert_user
              (User_set_present_id wish_user (User.present_id wish_user + 1))
              (FileStore.mutate_user user
                 (User_set_present_id wish_user
                    (User.present_id wish_user + 1)) s))).

(** The errors the service raises on purpose. *)
Definition is_not_found (e : exn) : Prop :=
  match e with
  | HTTPException status_code _ => status_code = NOT_FOUND
  | _ => False
  end.

(** ** Invariants of the data model *)

Definition unique_ids (presents : list Present.t) : Prop :=
  NoDup (Present.id <$> presents).

Definition duplicate_free_gifters (presents : list Present.t) : Prop :=
  Forall (λ p, NoDup (Present.assigned_to p)) presents.

Definition list_invariants (presents : list Present.t) : Prop :=
  unique_ids presents ∧ duplicate_free_gifters presents.

(** Gifters are duplicate-free throughout the store. *)
Definition gifters_invariant (s : FileStore.t) : Prop :=
  map_Forall (λ _ presents, duplicate_free_gifters presents)
    (FileStore._presents s).

(** Every id in the list was minted from a counter that has moved on. *)
Definition ids_below (counter : Z) (presents : list Present.t) : Prop :=
  Forall (λ p, Present.id p < counter) presents.

(** Every user is filed under their own name. *)
Definition named_by_key (s : FileStore.t) : Prop :=
  map_Forall (λ k u, User.name u = k) (FileStore._users s).

Definition counter_of (s : FileStore.t) (k : string) : option Z :=
  User.present_id <$> FileStore._users s !! k.

(** The invariant of one list, given the counter of its owner if the
    owner has a user record. *)
Definition list_ok (counter : option Z) (presents : list Present.t) : Prop :=
  list_invariants presents ∧
  from_option (λ c, ids_below c presents) True counter.

Definition store_invariants (s : FileStore.t) : Prop :=
  named_by_key s ∧
  map_Forall (λ k presents, list_ok (counter_of s k) presents)
    (FileStore._presents s).

#[global] Instance list_ok_dec counter presents :
  Decision (list_ok counter presents).
Proof.
  unfold list_ok, list_invariants, unique_ids, duplicate_free_gifters,
    ids_below. destruct counter; apply _.
Defined.

#[global] Instance store_invariants_dec s : Decision (store_invariants s).
Proof. unfold store_invariants, named_by_key. apply _. Defined.

(** An update whose payload carries the id of the present it updates. *)
Definition keeps_id (r : request) : Prop :=
  match r with
  | Update_present _ present_id present_data =>
      PresentWishData.id present_data = present_id
  | _ => True
  end.

(** ** What a wisher may see

    Two stores are alike to wishers when they hold the same users and
    present lists that agree on every wish view, position by position:
    they may differ in who is assigned to what, and in nothing else. *)

Definition wish_views (presents : list Present.t) : list PresentWishData.t :=
  Present_to_present_wish_response <$> presents.

Definition alike_to_wishers (s1 s2 : FileStore.t) : Prop :=
  FileStore._users s1 = FileStore._users s2 ∧
  FileStore.users_yml s1 = FileStore.users_yml s2 ∧
  wish_views <$> FileStore._presents s1
  = wish_views <$> FileStore._presents s2 ∧
  wish_views <$> FileStore.presents_yml s1
  = wish_views <$> FileStore.presents_yml s2.

(** An operation tells a wisher nothing about assignments when, run on
    two stores alike to wishers, it gives the same answer (or raises the
    same error) and leaves stores that are again alike. *)
Definition hides_assignments {A} (op : M A) : Prop :=
  ∀ s1 s2, alike_to_wishers s1 s2 →
    (op s1).1 = (op s2).1 ∧ alike_to_wishers (op s1).2 (op s2).2.

(** Number of times a name occurs in a list of gifters. *)
Definition occurrences (gifter : string) (assigned_to : list string) : nat :=
  length (filter (λ x, x = gifter) assigned_to).

(** ** Sample data used by the closed examples *)

Definition alice : User.t := User.mk "alice" "Alice" "alice.png" 3.
Definition bob : User.t := User.mk "bob" "Bob" "bob.png" 1.

Definition book : Present.t :=
  Present.mk 1 "Book" "" (Some "") None false ["bob"].
Definition bike : Present.t :=
  Present.mk 2 "Bike" "red" (Some "") (Some 200) true [].

Definition book_payload : PresentCreateData.t :=
  PresentCreateData.mk "Book" "" (Some "") None false.

Definition novel_update (id : Z) : PresentWishData.t :=
  PresentWishData.mk id "Novel" "paperback" None (Some 12) true.

(** alice and bob are registered; alice wishes for a book (reserved by
    bob) and a bike, bob for nothing yet. *)
Definition sample_store : FileStore.t :=
  FileStore.init
    (<["alice" := alice]> (<["bob" := bob]> ∅))
    (<["alice" := [book; bike]]> (<["bob" := []]> ∅)).

(** The sample store before bob reserved the book. *)
Definition unreserved_store : FileStore.t :=
  FileStore.init
    (<["alice" := alice]> (<["bob" := bob]> ∅))
    (<["alice" := [Present_set_assigned_to book []; bike]]>
       (<["bob" := []]> ∅)).

(** alice's counter was not moved past the id of the book she already
    wishes for. *)
Definition stale_counter_store : FileStore.t :=
  FileStore.init
    (<["alice" := User_set_present_id alice 1]> ∅)
    (<["alice" := [book]]> ∅).

(** A second record that says it is alice's is filed under "x". *)
Definition misfiled_store : FileStore.t :=
  FileStore.init
    (<["alice" := alice]> (<["x" := User_set_present_id alice 1]> ∅))
    (<["alice" := [book; bike]]> (<["x" := []]> ∅)).

(** alice has just registered: no wishes yet, counter at its seed. *)
Definition fresh_store : FileStore.t :=
  FileStore.init (<["alice" := User_set_present_id alice 1]> ∅)
                 (<["alice" := []]> ∅).

(** alice has a user record but no present list. *)
Definition listless_store : FileStore.t :=
  FileStore.init (<["alice" := alice]> ∅) ∅.

(** ** Persistence and ownership *)

(** The files hold what the dictionaries hold. *)
Definition synced (s : FileStore.t) : Prop :=
  FileStore.users_yml s = FileStore._users s ∧
  FileStore.presents_yml s = FileStore._presents s.

(** The user whose present list a route reads or edits. *)
Definition owner_of (r : request) : option string :=
  match r with
  | Get_users | Get_user _ => None
  | Get_present_wish_list user | Create_present user _
  | Update_present user _ _ | Delete_present user _ => Some user
  | Get_present_gift_list wisher | Assign_user_to_present _ wisher _
  | Remove_user_from_present _ wisher _ => Some wisher
  end.

(** The owner and the id a request passes to
    [find_present_in_list_by_id]: the four routes that look a present
    up. *)
Definition looked_up (r : request) : option (string * Z) :=
  match r with
  | Update_present user present_id _ | Delete_present user present_id =>
      Some (user, present_id)
  | Assign_user_to_present _ wisher present_id
  | Remove_user_from_present _ wisher present_id => Some (wisher, present_id)
  | Get_users | Get_user _ | Get_present_wish_list _ | Create_present _ _
  | Get_present_gift_list _ => None
  end.

(** The writes of one request, by table: the record of the owner, mutated
    in place and upserted, then the owner's list, upserted. *)
Definition apply_edit (user : string) (record : option User.t)
    (presents : option (list Present.t)) (s : FileStore.t) : FileStore.t :=
  let s :=
    match record with
    | Some wish_user =>
        FileStore.upsert_user wish_user
          (FileStore.mutate_user user wish_user s)
    | None => s
    end in
  match presents with
  | Some presents => FileStore.upsert_presents user presents s
  | None => s
  end.

(** Unfolding the service monad. *)
Ltac run_service :=
  unfold mbind, M_bind, mret, M_ret, exec, call, raise,
    getitem, setitem, delitem, list_remove_item; cbn.

(** ** Lemmas on the lookup by id *)

Lemma head_filter_list_find {A} (P : A → Prop) `{∀ x, Decision (P x)}
    (l : list A) :
  head (filter P l) = snd <$> list_find P l.
Proof.
  induction l as [|x l IH]; [done|].
  rewrite filter_cons. cbn [list_find]. destruct (decide (P x)); [done|].
  rewrite IH. by destruct (list_find P l) as [[??]|].
Qed.

(** [presents.index(found_present)] is the position at which the filter
    found it: an element equal to a present has that present's id. *)
Lemma index_first_with_id present_id presents i q :
  first_with_id present_id presents = Some (i, q) →
  index q presents = Some i.
Proof.
  unfold first_with_id, index. intros Hf.
  apply list_find_Some in Hf as (Hi & Hq & Hlt).
  assert (list_find (λ y, y = q) presents = Some (i, q)) as ->; [|done].
  apply list_find_Some. split_and!; [done..|].
  intros j y Hj Hji ->. by eapply Hlt.
Qed.

Lemma find_present_found user present_id s presents i q :
  FileStore.get_presents user s = Some presents →
  first_with_id present_id presents = Some (i, q) →
  find_present_in_list_by_id user present_id s = (Return (presents, q, i), s).
Proof.
  intros Hp Hf. unfold find_present_in_list_by_id, mbind, M_bind, call.
  rewrite Hp, head_filter_list_find. fold (first_with_id present_id presents).
  rewrite Hf. cbn. by rewrite (index_first_with_id _ _ _ _ Hf).
Qed.

Lemma find_present_missing user present_id s presents :
  FileStore.get_presents user s = Some presents →
  first_with_id present_id presents = None →
  find_present_in_list_by_id user present_id s
  = (Raise (PresentNotFound user present_id), s).
Proof.
  intros Hp Hf. unfold find_present_in_list_by_id, mbind, M_bind, call.
  rewrite Hp, head_filter_list_find. fold (first_with_id present_id presents).
  by rewrite Hf.
Qed.

Lemma find_present_no_list user present_id s :
  FileStore.get_presents user s = None →
  find_present_in_list_by_id user present_id s = (Raise TypeError, s).
Proof.
  intros Hp. unfold find_present_in_list_by_id, mbind, M_bind, call.
  by rewrite Hp.
Qed.

Lemma first_with_id_lookup present_id presents i q :
  first_with_id present_id presents = Some (i, q) →
  presents !! i = Some q ∧ Present.id q = present_id ∧
  (i < length presents)%nat.
Proof.
  intros Hf. apply list_find_Some in Hf as (Hi & Hq & _).
  split_and!; [done..|]. by eapply lookup_lt_Some.
Qed.

(** ** What each mutating operation computes *)

(** Mutating the list held under a key and then upserting that same list
    is one upsert. *)
Lemma upsert_after_mutate user presents s :
  FileStore.upsert_presents user presents
    (FileStore.mutate_presents user presents s)
  = FileStore.upsert_presents user presents s.
Proof.
  unfold FileStore.upsert_presents, FileStore.mutate_presents,
    FileStore._save_presents. cbn. by rewrite insert_insert_eq.
Qed.

Lemma update_present_found user present_id d s presents i q :
  FileStore.get_presents user s = Some presents →
  first_with_id present_id presents = Some (i, q) →
  let presents' :=
    <[i := PresentWishData_to_present d (Present.assigned_to q)]> presents in
  update_present user present_id d s
  = (Return (Present_to_present_wish_response <$> presents'),
     FileStore.upsert_presents user presents' s).
Proof.
  intros Hp Hf presents'. unfold update_present.
  pose proof (first_with_id_lookup _ _ _ _ Hf) as (_ & _ & Hlt).
  run_service. rewrite (find_present_found _ _ _ _ _ _ Hp Hf).
  run_service. rewrite decide_True by done. cbn.
  by rewrite upsert_after_mutate.
Qed.

Lemma delete_present_found user present_id s presents i q :
  FileStore.get_presents user s = Some presents →
  first_with_id present_id presents = Some (i, q) →
  delete_present user present_id s
  = (Return (Present_to_present_wish_response <$> delete i presents),
     FileStore.upsert_presents user (delete i presents) s).
Proof.
  intros Hp Hf. unfold delete_present.
  pose proof (first_with_id_lookup _ _ _ _ Hf) as (_ & _ & Hlt).
  run_service. rewrite (find_present_found _ _ _ _ _ _ Hp Hf).
  run_service. rewrite decide_True by done. cbn.
  by rewrite upsert_after_mutate.
Qed.

Lemma assign_user_found user present_id gifter s presents i q :
  FileStore.get_presents user s = Some presents →
  first_with_id present_id presents = Some (i, q) →
  assign_user_to_present user present_id gifter s
  = if decide (gifter ∈ Present.assigned_to q) then
      (Return (Present_to_present_gift_response <$> presents), s)
    else
      let presents' :=
        <[i := Present_set_assigned_to q (Present.assigned_to q ++ [gifter])]>
          presents in
      (Return (Present_to_present_gift_response <$> presents'),
       FileStore.upsert_presents user presents' s).
Proof.
  intros Hp Hf. unfold assign_user_to_present.
  pose proof (first_with_id_lookup _ _ _ _ Hf) as (Hi & _ & _).
  run_service. rewrite (find_present_found _ _ _ _ _ _ Hp Hf).
  run_service. rewrite Hi. cbn.
  destruct (decide (gifter ∈ Present.assigned_to q)) as [Hin|Hin].
  - by rewrite decide_False by (by intros ?).
  - rewrite decide_True by done. cbn. by rewrite upsert_after_mutate.
Qed.

Lemma remove_user_found user present_id gifter s presents i q :
  FileStore.get_presents user s = Some presents →
  first_with_id present_id presents = Some (i, q) →
  remove_user_from_present user present_id gifter s
  = if decide (gifter ∈ Present.assigned_to q) then
      let presents' :=
        <[i := Present_set_assigned_to q
                 (remove_first gifter (Present.assigned_to q))]> presents in
      (Return (Present_to_present_gift_response <$> presents'),
       FileStore.upsert_presents user presents' s)
    else
      (Return (Present_to_present_gift_response <$> presents), s).
Proof.
  intros Hp Hf. unfold remove_user_from_present.
  pose proof (first_with_id_lookup _ _ _ _ Hf) as (Hi & _ & _).
  run_service. rewrite (find_present_found _ _ _ _ _ _ Hp Hf).
  run_service. rewrite Hi. cbn.
  destruct (decide (gifter ∈ Present.assigned_to q)) as [Hin|Hin]; [|done].
  cbn. by rewrite upsert_after_mutate.
Qed.

Lemma create_present_found user d s wish_user presents :
  FileStore.get_user user s = Some wish_user →
  FileStore.get_presents user s = Some presents →
  let present_id := User.present_id wish_user in
  let wish_user' := User_set_present_id wish_user (present_id + 1) in
  let presents' := presents ++ [PresentCreateData_to_present d present_id []] in
  create_present user d s
  = (Return (Present_to_present_wish_response <$> presents'),
     FileStore.upsert_presents user presents'
       (FileStore.upsert_user wish_user'
          (FileStore.mutate_user user wish_user' s))).
Proof.
  intros Hu Hp present_id wish_user' presents'. unfold create_present.
  run_service. rewrite Hu. cbn.
  unfold FileStore.get_presents in *. cbn. rewrite Hp. cbn.
  by rewrite upsert_after_mutate.
Qed.

Lemma create_present_no_list user d s wish_user :
  FileStore.get_user user s = Some wish_user →
  FileStore.get_presents user s = None →
  let wish_user' :=
    User_set_present_id wish_user (User.present_id wish_user + 1) in
  create_present user d s
  = (Raise AttributeError,
     FileStore.upsert_user wish_user'
       (FileStore.mutate_user user wish_user' s)).
Proof.
  intros Hu Hp wish_user'. unfold create_present.
  run_service. rewrite Hu. cbn.
  unfold FileStore.get_presents in *. cbn. by rewrite Hp.
Qed.

Lemma create_present_no_user user d s :
  FileStore.get_user user s = None →
  create_present user d s = (Raise AttributeError, s).
Proof.
  intros Hu. unfold create_present. run_service. by rewrite Hu.
Qed.

(** ** A session

    alice wishes for a book, bob reserves it (twice), withdraws, and alice
    drops the wish; afterwards present 1 is not found, and carol is
    unknown. *)

Example session :
  let book1 := PresentWishData.mk 1 "Book" "" (Some "") None false in
  let gift gifters :=
    PresentGiftData.mk 1 "Book" "" (Some "") None false gifters in
  let s1 := (create_present "alice" book_payload fresh_store).2 in
  let s2 := (assign_user_to_present "alice" 1 "bob" s1).2 in
  let s3 := (remove_user_from_present "alice" 1 "bob" s2).2 in
  let s4 := (delete_present "alice" 1 s3).2 in
  (create_present "alice" book_payload fresh_store).1 = Return [book1] ∧
  (assign_user_to_present "alice" 1 "bob" s1).1 = Return [gift ["bob"]] ∧
  assign_user_to_present "alice" 1 "bob" s2 = (Return [gift ["bob"]], s2) ∧
  (remove_user_from_present "alice" 1 "bob" s2).1 = Return [gift []] ∧
  (delete_present "alice" 1 s3).1 = Return [] ∧
  (delete_present "alice" 1 s4).1 = Raise (PresentNotFound "alice" 1) ∧
  (get_user_present_wish_list "carol" s4).1 = Raise (UserNotFound "carol") ∧
  counter_of s4 "alice" = Some 2.
Proof. by vm_compute. Qed.

(** ** Operations on a user the store does not know *)

(** C1, as the code has it.  When the store holds no present list for the
    user, [update_present], [delete_present], [assign_user_to_present] and
    [remove_user_from_present] all stop in [find_present_in_list_by_id]
    with Python's [TypeError] (filtering [None]), leaving the store as it
    was; that is not the not-found error the claim names. *)
Theorem mutators_without_list_raise_TypeError
    user present_id present_data gifter s :
  FileStore.get_presents user s = None →
  update_present user present_id present_data s = (Raise TypeError, s) ∧
  delete_present user present_id s = (Raise TypeError, s) ∧
  assign_user_to_present user present_id gifter s = (Raise TypeError, s) ∧
  remove_user_from_present user present_id gifter s = (Raise TypeError, s) ∧
  TypeError ≠ UserNotFound user.
Proof.
  intros Hp.
  unfold update_present, delete_present, assign_user_to_present,
    remove_user_from_present.
  run_service. rewrite (find_present_no_list _ _ _ Hp). done.
Qed.

Lemma mutators_without_list_carol :
  FileStore.get_presents "carol" sample_store = None ∧
  update_present "carol" 1 (novel_update 1) sample_store
  = (Raise TypeError, sample_store) ∧
  get_user_present_wish_list "carol" sample_store
  = (Raise (UserNotFound "carol"), sample_store).
Proof.
  split; [reflexivity|]. split; [|reflexivity].
  apply (mutators_without_list_raise_TypeError
           "carol" 1 (novel_update 1) "bob" sample_store).
  reflexivity.
Defined.

(** C2, as the code has it.  When the store holds no user record for the
    user, [create_present] stops at [wish_user.present_id] with Python's
    [AttributeError], leaving the store as it was; that is not the
    not-found error the claim names. *)
Theorem create_present_without_user_raises_AttributeError
    user present_data s :
  FileStore.get_user user s = None →
  create_present user present_data s = (Raise AttributeError, s) ∧
  AttributeError ≠ UserNotFound user.
Proof.
  intros Hu. split; [by apply create_present_no_user|done].
Qed.

Lemma create_present_without_user_carol :
  FileStore.get_user "carol" sample_store = None ∧
  create_present "carol" book_payload sample_store
  = (Raise AttributeError, sample_store) ∧
  get_user_data "carol" sample_store
  = (Raise (UserNotFound "carol"), sample_store).
Proof.
  split; [reflexivity|]. split; [|reflexivity].
  apply (create_present_without_user_raises_AttributeError
           "carol" book_payload sample_store).
  reflexivity.
Defined.

(** ** Updating a present *)

(** C3 fails as stated: updating alice's present 1 with a payload that
    carries id 2 leaves, at the position of present 1, a present whose id
    is 2. *)
Lemma update_present_renumbers :
  first_with_id 1 [book; bike] = Some (0%nat, book) ∧
  ∃ presents' q',
    FileStore.get_presents "alice"
      (update_present "alice" 1 (novel_update 2) sample_store).2
    = Some presents' ∧
    presents' !! 0%nat = Some q' ∧
    Present.id q' = 2 ∧ Present.id q' ≠ 1.
Proof.
  split; [reflexivity|].
  eexists _, _. split; [reflexivity|]. split; [reflexivity|]. done.
Qed.

(** C3, amended.  After [update_present user present_id present_data] the
    present at the position where [present_id] was found carries the id of
    the payload; it is still [present_id] exactly when the payload's id is
    [present_id]. *)
Theorem update_present_id_from_payload
    user present_id present_data s presents i q :
  FileStore.get_presents user s = Some presents →
  first_with_id present_id presents = Some (i, q) →
  ∃ presents' q',
    update_present user present_id present_data s
    = (Return (wish_views presents'),
       FileStore.upsert_presents user presents' s) ∧
    FileStore.get_presents user
      (update_present user present_id present_data s).2 = Some presents' ∧
    presents' !! i = Some q' ∧
    Present.id q' = PresentWishData.id present_data ∧
    (Present.id q' = present_id
     ↔ PresentWishData.id present_data = present_id).
Proof.
  intros Hp Hf.
  pose proof (first_with_id_lookup _ _ _ _ Hf) as (_ & _ & Hlt).
  eexists _, _. split; [by apply update_present_found|].
  rewrite (update_present_found _ _ present_data _ _ _ _ Hp Hf). cbn.
  split; [apply lookup_insert_eq|].
  split; [by apply list_lookup_insert_eq|]. done.
Qed.

Lemma update_present_id_from_payload_alice :
  ∃ presents' q',
    update_present "alice" 1 (novel_update 1) sample_store
    = (Return (wish_views presents'),
       FileStore.upsert_presents "alice" presents' sample_store) ∧
    FileStore.get_presents "alice"
      (update_present "alice" 1 (novel_update 1) sample_store).2
    = Some presents' ∧
    presents' !! 0%nat = Some q' ∧
    Present.id q' = PresentWishData.id (novel_update 1) ∧
    (Present.id q' = 1 ↔ PresentWishData.id (novel_update 1) = 1).
Proof.
  apply (update_present_id_from_payload
           "alice" 1 (novel_update 1) sample_store [book; bike] 0 book);
    reflexivity.
Defined.

(** C4 fails as stated: bob is assigned to alice's present 1, and after
    updating present 1 with a payload that carries id 7 no present of her
    list has id 1 any more (the ids are 7 and 2), so there is no stored
    present with id 1 whose gifters could be compared; the update has
    replaced the id along with the other fields of the payload. *)
Lemma update_present_unfinds_the_id :
  first_with_id 1 [book; bike] = Some (0%nat, book) ∧
  Present.assigned_to book = ["bob"] ∧
  ∃ presents',
    FileStore.get_presents "alice"
      (update_present "alice" 1 (novel_update 7) sample_store).2
    = Some presents' ∧
    Present.id <$> presents' = [7; 2] ∧
    first_with_id 1 presents' = None ∧
    (1 ∉ Present.id <$> presents').
Proof.
  split; [reflexivity|]. split; [reflexivity|].
  eexists. split; [reflexivity|]. split; [reflexivity|].
  split; [reflexivity|]. apply (bool_decide_unpack _). by vm_compute.
Qed.

(** C4, amended.  [update_present] carries the gifters over: the present
    written at the position of the one found has the found one's
    [assigned_to] and, in every other field, the id included, what the
    payload carries; every other entry of the list is the one that was
    there, so the list of gifts read back afterwards shows, position by
    position, the assignments it showed before; and when the payload
    carries the id that was looked up, looking that id up again finds the
    rewritten present. *)
Theorem update_present_preserves_assigned_to
    user present_id present_data s presents i q :
  FileStore.get_presents user s = Some presents →
  first_with_id present_id presents = Some (i, q) →
  let s' := (update_present user present_id present_data s).2 in
  ∃ presents' q',
    FileStore.get_presents user s' = Some presents' ∧
    presents' !! i = Some q' ∧
    Present.assigned_to q' = Present.assigned_to q ∧
    Present_to_present_wish_response q' = present_data ∧
    (∀ j, j ≠ i → presents' !! j = presents !! j) ∧
    Present.assigned_to <$> presents' = Present.assigned_to <$> presents ∧
    (∃ gifts,
       get_user_present_gift_list user s' = (Return gifts, s') ∧
       PresentGiftData.assigned_to <$> gifts
       = Present.assigned_to <$> presents) ∧
    (PresentWishData.id present_data = present_id →
     first_with_id present_id presents' = Some (i, q')).
Proof.
  intros Hp Hf s'.
  pose proof (first_with_id_lookup _ _ _ _ Hf) as (Hi & Hid & Hlt).
  assert (Hcol :
    Present.assigned_to <$>
      <[i := PresentWishData_to_present present_data (Present.assigned_to q)]>
        presents
    = Present.assigned_to <$> presents).
  { rewrite list_fmap_insert. cbn. apply list_insert_id.
    by rewrite list_lookup_fmap, Hi. }
  assert (Hs' : FileStore.get_presents user s'
    = Some (<[i := PresentWishData_to_present present_data
                     (Present.assigned_to q)]> presents)).
  { unfold s'. rewrite (update_present_found _ _ present_data _ _ _ _ Hp Hf).
    cbn. apply lookup_insert_eq. }
  eexists _, _. split; [exact Hs'|].
  split; [by apply list_lookup_insert_eq|].
  split; [done|]. split; [by destruct present_data|].
  split; [by intros j Hj; apply list_lookup_insert_ne|].
  split; [done|]. split.
  - eexists. unfold get_user_present_gift_list. run_service.
    rewrite Hs'. split; [done|].
    rewrite <- Hcol, <- !list_fmap_compose. done.
  - intros Hd. apply list_find_Some.
    split; [by apply list_lookup_insert_eq|]. split; [done|].
    intros j y Hj Hji. rewrite list_lookup_insert_ne in Hj by lia.
    apply list_find_Some in Hf as (_ & _ & Hmin). by eapply Hmin.
Qed.

Lemma update_present_preserves_assigned_to_alice :
  ∃ presents' q',
    FileStore.get_presents "alice"
      (update_present "alice" 1 (novel_update 1) sample_store).2
    = Some presents' ∧
    presents' !! 0%nat = Some q' ∧
    Present.assigned_to q' = ["bob"].
Proof.
  destruct (update_present_preserves_assigned_to
              "alice" 1 (novel_update 1) sample_store [book; bike] 0 book)
    as (presents' & q' & H1 & H2 & H3 & _); [reflexivity..|].
  by exists presents', q'.
Defined.

(** ** Assigning and unassigning a gifter *)

Lemma first_with_id_insert present_id presents i q q' :
  first_with_id present_id presents = Some (i, q) →
  Present.id q' = present_id →
  first_with_id present_id (<[i := q']> presents) = Some (i, q').
Proof.
  intros Hf Hid.
  pose proof (first_with_id_lookup _ _ _ _ Hf) as (_ & _ & Hlt).
  apply list_find_Some in Hf as (_ & _ & Hmin).
  apply list_find_Some. split; [by apply list_lookup_insert_eq|].
  split; [done|]. intros j y Hj Hji.
  rewrite list_lookup_insert_ne in Hj by lia. by eapply Hmin.
Qed.

Lemma remove_first_cut (x : string) l :
  x ∈ l →
  ∃ l1 l2, l = l1 ++ (x :: l2) ∧ (x ∉ l1) ∧ remove_first x l = l1 ++ l2.
Proof.
  induction l as [|y l IH]; intros Hin; [by apply elem_of_nil in Hin|].
  cbn. destruct (decide (y = x)) as [->|Hne].
  - exists [], l. split_and!; [done| |done]. apply not_elem_of_nil.
  - apply elem_of_cons in Hin as [->|Hin]; [done|].
    destruct (IH Hin) as (l1 & l2 & -> & Hl1 & ->).
    exists (y :: l1), l2. split_and!; [done| |done].
    rewrite not_elem_of_cons. by split.
Qed.

Lemma remove_first_NoDup (x : string) l :
  NoDup l → NoDup (remove_first x l) ∧ x ∉ remove_first x l.
Proof.
  intros Hnd. destruct (decide (x ∈ l)) as [Hin|Hin].
  - destruct (remove_first_cut x l Hin) as (l1 & l2 & -> & Hl1 & ->).
    apply NoDup_app in Hnd as (Hn1 & Hdisj & Hn2).
    apply NoDup_cons in Hn2 as [Hx2 Hn2]. split.
    + apply NoDup_app. split_and!; [done| |done].
      intros z Hz1 Hz2. apply (Hdisj z Hz1). by right.
    + rewrite not_elem_of_app. by split.
  - assert (remove_first x l = l) as ->; [|done].
    clear Hnd. induction l as [|y l IH]; [done|]. cbn.
    apply not_elem_of_cons in Hin as [Hne Hin].
    rewrite decide_False by done. by rewrite IH.
Qed.

Lemma occurrences_absent gifter l :
  gifter ∉ l → occurrences gifter l = 0%nat.
Proof.
  unfold occurrences. induction l as [|y l IH]; [done|].
  intros [Hne Hin]%not_elem_of_cons. rewrite filter_cons.
  rewrite decide_False by done. by apply IH.
Qed.

Lemma occurrences_app gifter l1 l2 :
  occurrences gifter (l1 ++ l2)
  = (occurrences gifter l1 + occurrences gifter l2)%nat.
Proof. unfold occurrences. by rewrite filter_app, length_app. Qed.

Lemma occurrences_present gifter l :
  gifter ∈ l → (1 ≤ occurrences gifter l)%nat.
Proof.
  intros (l1 & l2 & ->)%list_elem_of_split.
  rewrite occurrences_app. unfold occurrences at 2.
  rewrite filter_cons, decide_True by done. cbn. lia.
Qed.

Lemma occurrences_NoDup gifter l :
  NoDup l → gifter ∈ l → occurrences gifter l = 1%nat.
Proof.
  intros Hnd (l1 & l2 & ->)%list_elem_of_split.
  apply NoDup_app in Hnd as (_ & Hdisj & Hn2).
  apply NoDup_cons in Hn2 as [Hx2 _].
  rewrite occurrences_app. unfold occurrences at 2.
  rewrite filter_cons, decide_True by done. cbn.
  fold (occurrences gifter l2).
  rewrite (occurrences_absent gifter l2) by done.
  rewrite (occurrences_absent gifter l1); [done|].
  intros Hl1. apply (Hdisj _ Hl1). by left.
Qed.

(** C5.  Both assignment operations succeed on a present that is in the
    list.  Assigning a second time returns the same list of gifts and
    leaves the store as the first assignment left it; afterwards the
    gifter is among the present's gifters, as often as before or once if
    they were not, hence exactly once when the gifters were duplicate-free.
    Unassigning a second time does the same as unassigning once when the
    gifters are duplicate-free (the data model's invariant); and
    unassigning somebody who is not assigned returns the list of gifts as
    it stands and leaves the store untouched. *)
Theorem assign_remove_idempotent user present_id gifter s presents i q :
  FileStore.get_presents user s = Some presents →
  first_with_id present_id presents = Some (i, q) →
  let assigned := assign_user_to_present user present_id gifter s in
  let removed := remove_user_from_present user present_id gifter s in
  (∃ gifts, assigned.1 = Return gifts) ∧
  assign_user_to_present user present_id gifter assigned.2 = assigned ∧
  (∃ presents2 q2,
     FileStore.get_presents user
       (assign_user_to_present user present_id gifter assigned.2).2
     = Some presents2 ∧
     presents2 !! i = Some q2 ∧
     gifter ∈ Present.assigned_to q2 ∧
     occurrences gifter (Present.assigned_to q2)
     = Nat.max 1 (occurrences gifter (Present.assigned_to q)) ∧
     (NoDup (Present.assigned_to q) →
      occurrences gifter (Present.assigned_to q2) = 1%nat)) ∧
  (∃ gifts, removed.1 = Return gifts) ∧
  (NoDup (Present.assigned_to q) →
   remove_user_from_present user present_id gifter removed.2 = removed) ∧
  (gifter ∉ Present.assigned_to q →
   removed = (Return (Present_to_present_gift_response <$> presents), s)).
Proof.
  intros Hp Hf assigned removed.
  pose proof (first_with_id_lookup _ _ _ _ Hf) as (Hi & Hid & Hlt).
  assert (Hassigned : ∃ presents1 q1,
    assigned = (Return (Present_to_present_gift_response <$> presents1),
                assigned.2) ∧
    FileStore.get_presents user assigned.2 = Some presents1 ∧
    first_with_id present_id presents1 = Some (i, q1) ∧
    gifter ∈ Present.assigned_to q1 ∧
    occurrences gifter (Present.assigned_to q1)
    = Nat.max 1 (occurrences gifter (Present.assigned_to q))).
  { unfold assigned. rewrite (assign_user_found _ _ gifter _ _ _ _ Hp Hf).
    destruct (decide (gifter ∈ Present.assigned_to q)) as [Hin|Hin].
    - exists presents, q. split_and!; [done..|].
      pose proof (occurrences_present _ _ Hin). lia.
    - eexists _, _. cbn. split; [done|].
      split; [apply lookup_insert_eq|].
      split; [by eapply first_with_id_insert|]. cbn.
      split; [apply elem_of_app; right; by left|].
      fold (occurrences gifter (Present.assigned_to q ++ [gifter])).
      rewrite occurrences_app, (occurrences_absent _ _ Hin).
      unfold occurrences. rewrite filter_cons, decide_True by done. done. }
  destruct Hassigned as (presents1 & q1 & Ha & Hp1 & Hf1 & Hin1 & Hocc).
  assert (Hagain :
    assign_user_to_present user present_id gifter assigned.2 = assigned).
  { rewrite (assign_user_found _ _ gifter _ _ _ _ Hp1 Hf1).
    rewrite decide_True by done. symmetry. exact Ha. }
  split; [rewrite Ha; by eexists|]. split; [done|]. split.
  { exists presents1, q1. rewrite Hagain.
    pose proof (first_with_id_lookup _ _ _ _ Hf1) as (Hi1 & _ & _).
    split_and!; [done..|].
    intros Hnd. rewrite Hocc.
    destruct (decide (gifter ∈ Present.assigned_to q)) as [Hin|Hin].
    - by rewrite (occurrences_NoDup _ _ Hnd Hin).
    - by rewrite (occurrences_absent _ _ Hin). }
  unfold removed. rewrite (remove_user_found _ _ gifter _ _ _ _ Hp Hf).
  destruct (decide (gifter ∈ Present.assigned_to q)) as [Hin|Hin].
  - cbn. split; [by eexists|]. split; [|done].
    intros Hnd. destruct (remove_first_NoDup gifter _ Hnd) as [_ Hgone].
    erewrite remove_user_found;
      [|apply lookup_insert_eq|by eapply first_with_id_insert].
    by rewrite decide_False.
  - split; [by eexists|]. split; [|done].
    intros _. cbn. rewrite (remove_user_found _ _ gifter _ _ _ _ Hp Hf).
    by rewrite decide_False.
Qed.

Lemma assign_remove_idempotent_alice :
  NoDup (Present.assigned_to bike) ∧
  assign_user_to_present "alice" 2 "bob"
    (assign_user_to_present "alice" 2 "bob" sample_store).2
  = assign_user_to_present "alice" 2 "bob" sample_store ∧
  remove_user_from_present "alice" 1 "bob"
    (remove_user_from_present "alice" 1 "bob" sample_store).2
  = remove_user_from_present "alice" 1 "bob" sample_store.
Proof.
  split; [apply NoDup_nil_2|]. split.
  - apply (assign_remove_idempotent
             "alice" 2 "bob" sample_store [book; bike] 1 bike); reflexivity.
  - apply (assign_remove_idempotent
             "alice" 1 "bob" sample_store [book; bike] 0 book);
      [reflexivity..|].
    cbn. apply NoDup_singleton.
Defined.

(** C10.  Assigning or unassigning a gifter leaves the users, in memory
    and on file, and every other user's list as they were; the owner's
    list keeps its length, every entry other than the one found is the
    entry that was there, and the entry found keeps its place and all its
    fields other than [assigned_to] (the wish views of the list are the
    same before and after). *)
Theorem assignment_frame user present_id gifter s presents i q s' :
  FileStore.get_presents user s = Some presents →
  first_with_id present_id presents = Some (i, q) →
  s' = (assign_user_to_present user present_id gifter s).2 ∨
  s' = (remove_user_from_present user present_id gifter s).2 →
  FileStore._users s' = FileStore._users s ∧
  FileStore.users_yml s' = FileStore.users_yml s ∧
  (∀ other, other ≠ user →
     FileStore.get_presents other s' = FileStore.get_presents other s) ∧
  ∃ presents' q',
    FileStore.get_presents user s' = Some presents' ∧
    length presents' = length presents ∧
    wish_views presents' = wish_views presents ∧
    first_with_id present_id presents' = Some (i, q') ∧
    presents' !! i = Some q' ∧
    Present_to_present_wish_response q' = Present_to_present_wish_response q ∧
    (∀ j, j ≠ i → presents' !! j = presents !! j).
Proof.
  intros Hp Hf Hs'.
  pose proof (first_with_id_lookup _ _ _ _ Hf) as (Hi & Hid & Hlt).
  assert (Hkept : ∀ l,
    let presents' := <[i := Present_set_assigned_to q l]> presents in
    let s1 := FileStore.upsert_presents user presents' s in
    FileStore._users s1 = FileStore._users s ∧
    FileStore.users_yml s1 = FileStore.users_yml s ∧
    (∀ other, other ≠ user →
       FileStore.get_presents other s1 = FileStore.get_presents other s) ∧
    ∃ presents' q',
      FileStore.get_presents user s1 = Some presents' ∧
      length presents' = length presents ∧
      wish_views presents' = wish_views presents ∧
      first_with_id present_id presents' = Some (i, q') ∧
      presents' !! i = Some q' ∧
      Present_to_present_wish_response q'
      = Present_to_present_wish_response q ∧
      (∀ j, j ≠ i → presents' !! j = presents !! j)).
  { intros l presents' s1. split; [done|]. split; [done|]. split.
    { intros other Hne. by apply lookup_insert_ne. }
    exists presents', (Present_set_assigned_to q l).
    split; [apply lookup_insert_eq|]. split; [apply length_insert|].
    split.
    { unfold wish_views, presents'. rewrite list_fmap_insert.
      apply list_insert_id. by rewrite list_lookup_fmap, Hi. }
    split; [by eapply first_with_id_insert|].
    split; [by apply list_lookup_insert_eq|]. split; [done|].
    intros j Hj. by apply list_lookup_insert_ne. }
  assert (Hsame :
    FileStore._users s = FileStore._users s ∧
    FileStore.users_yml s = FileStore.users_yml s ∧
    (∀ other, other ≠ user →
       FileStore.get_presents other s = FileStore.get_presents other s) ∧
    ∃ presents' q',
      FileStore.get_presents user s = Some presents' ∧
      length presents' = length presents ∧
      wish_views presents' = wish_views presents ∧
      first_with_id present_id presents' = Some (i, q') ∧
      presents' !! i = Some q' ∧
      Present_to_present_wish_response q'
      = Present_to_present_wish_response q ∧
      (∀ j, j ≠ i → presents' !! j = presents !! j)).
  { split_and!; [done..|]. exists presents, q. by split_and!. }
  destruct Hs' as [-> | ->].
  - rewrite (assign_user_found _ _ gifter _ _ _ _ Hp Hf).
    destruct (decide (gifter ∈ Present.assigned_to q)); [done|]. apply Hkept.
  - rewrite (remove_user_found _ _ gifter _ _ _ _ Hp Hf).
    destruct (decide (gifter ∈ Present.assigned_to q)); [|done]. apply Hkept.
Qed.

Lemma assignment_frame_alice :
  FileStore._users (assign_user_to_present "alice" 2 "bob" sample_store).2
  = FileStore._users sample_store ∧
  FileStore.get_presents "bob"
    (remove_user_from_present "alice" 1 "bob" sample_store).2
  = Some [].
Proof.
  split.
  - apply (assignment_frame "alice" 2 "bob" sample_store [book; bike] 1 bike);
      [reflexivity..|by left].
  - destruct (assignment_frame "alice" 1 "bob" sample_store [book; bike] 0
                book (remove_user_from_present "alice" 1 "bob" sample_store).2)
      as (_ & _ & Hother & _); [reflexivity..|by right|].
    by rewrite Hother.
Defined.

(** ** Wish views *)

Lemma alike_get_presents s1 s2 user :
  alike_to_wishers s1 s2 →
  wish_views <$> FileStore.get_presents user s1
  = wish_views <$> FileStore.get_presents user s2.
Proof.
  intros (_ & _ & Hm & _). unfold FileStore.get_presents.
  by rewrite <- !lookup_fmap, Hm.
Qed.

Lemma alike_upsert_presents s1 s2 user presents1 presents2 :
  alike_to_wishers s1 s2 →
  wish_views presents1 = wish_views presents2 →
  alike_to_wishers (FileStore.upsert_presents user presents1 s1)
                   (FileStore.upsert_presents user presents2 s2).
Proof.
  intros (Hu & Huf & Hm & _) Hw. unfold alike_to_wishers. cbn.
  rewrite !fmap_insert, Hm, Hw. done.
Qed.

Lemma alike_upsert_user s1 s2 user wish_user :
  alike_to_wishers s1 s2 →
  alike_to_wishers
    (FileStore.upsert_user wish_user (FileStore.mutate_user user wish_user s1))
    (FileStore.upsert_user wish_user (FileStore.mutate_user user wish_user s2)).
Proof.
  intros (Hu & Huf & Hm & Hmf). unfold alike_to_wishers. cbn.
  by rewrite Hu.
Qed.

(** On lists with the same wish views the lookup by id finds the same
    position, and presents with the same wish view. *)
Lemma first_with_id_wish_views present_id presents1 presents2 :
  wish_views presents1 = wish_views presents2 →
  prod_map id Present_to_present_wish_response
    <$> first_with_id present_id presents1
  = prod_map id Present_to_present_wish_response
    <$> first_with_id present_id presents2.
Proof.
  intros Hw.
  assert (∀ presents,
    prod_map id Present_to_present_wish_response
      <$> first_with_id present_id presents
    = list_find (λ w, PresentWishData.id w = present_id)
        (wish_views presents)) as Hviews.
  { intros presents. unfold wish_views. by rewrite list_find_fmap. }
  by rewrite !Hviews, Hw.
Qed.

Lemma wish_list_hides user :
  hides_assignments (get_user_present_wish_list user).
Proof.
  intros s1 s2 Ha. pose proof (alike_get_presents _ _ user Ha) as Hp.
  unfold get_user_present_wish_list. run_service.
  destruct (FileStore.get_presents user s1) as [presents1|],
    (FileStore.get_presents user s2) as [presents2|]; simplify_eq/=;
    [|done]. split; [|done]. f_equal. done.
Qed.

Lemma create_hides user present_data :
  hides_assignments (create_present user present_data).
Proof.
  intros s1 s2 Ha. pose proof (alike_get_presents _ _ user Ha) as Hp.
  assert (FileStore.get_user user s1 = FileStore.get_user user s2) as Hu.
  { destruct Ha as [Hu _]. unfold FileStore.get_user. by rewrite Hu. }
  destruct (FileStore.get_user user s2) as [wish_user|] eqn:Hu2.
  - destruct (FileStore.get_presents user s1) as [presents1|] eqn:Hp1,
      (FileStore.get_presents user s2) as [presents2|] eqn:Hp2;
      simplify_eq/=.
    + rewrite (create_present_found _ present_data _ _ _ Hu Hp1).
      rewrite (create_present_found _ present_data _ _ _ Hu2 Hp2). cbn.
      assert (wish_views
                (presents1 ++ [PresentCreateData_to_present present_data
                                 (User.present_id wish_user) []])
              = wish_views
                (presents2 ++ [PresentCreateData_to_present present_data
                                 (User.present_id wish_user) []])) as Hw.
      { unfold wish_views in *. by rewrite !fmap_app, Hp. }
      split; [by f_equal|].
      apply alike_upsert_presents; [|done]. by apply alike_upsert_user.
    + rewrite (create_present_no_list _ present_data _ _ Hu Hp1).
      rewrite (create_present_no_list _ present_data _ _ Hu2 Hp2). cbn.
      split; [done|]. by apply alike_upsert_user.
  - rewrite (create_present_no_user _ present_data _ Hu).
    by rewrite (create_present_no_user _ present_data _ Hu2).
Qed.

Lemma update_hides user present_id present_data :
  hides_assignments (update_present user present_id present_data).
Proof.
  intros s1 s2 Ha. pose proof (alike_get_presents _ _ user Ha) as Hp.
  destruct (FileStore.get_presents user s1) as [presents1|] eqn:Hp1,
    (FileStore.get_presents user s2) as [presents2|] eqn:Hp2; simplify_eq/=.
  - pose proof (first_with_id_wish_views present_id _ _ Hp) as Hf.
    destruct (first_with_id present_id presents1) as [[i q1]|] eqn:Hf1,
      (first_with_id present_id presents2) as [[j q2]|] eqn:Hf2;
      simplify_eq/=.
    + rewrite (update_present_found _ _ present_data _ _ _ _ Hp1 Hf1).
      rewrite (update_present_found _ _ present_data _ _ _ _ Hp2 Hf2). cbn.
      assert (wish_views
                (<[j := PresentWishData_to_present present_data
                          (Present.assigned_to q1)]> presents1)
              = wish_views
                (<[j := PresentWishData_to_present present_data
                          (Present.assigned_to q2)]> presents2)) as Hw.
      { unfold wish_views in *. by rewrite !list_fmap_insert, Hp. }
      split; [by f_equal|]. by apply alike_upsert_presents.
    + unfold update_present. run_service.
      rewrite (find_present_missing _ _ _ _ Hp1 Hf1).
      by rewrite (find_present_missing _ _ _ _ Hp2 Hf2).
  - unfold update_present. run_service.
    rewrite (find_present_no_list _ _ _ Hp1).
    by rewrite (find_present_no_list _ _ _ Hp2).
Qed.

Lemma delete_hides user present_id :
  hides_assignments (delete_present user present_id).
Proof.
  intros s1 s2 Ha. pose proof (alike_get_presents _ _ user Ha) as Hp.
  destruct (FileStore.get_presents user s1) as [presents1|] eqn:Hp1,
    (FileStore.get_presents user s2) as [presents2|] eqn:Hp2; simplify_eq/=.
  - pose proof (first_with_id_wish_views present_id _ _ Hp) as Hf.
    destruct (first_with_id present_id presents1) as [[i q1]|] eqn:Hf1,
      (first_with_id present_id presents2) as [[j q2]|] eqn:Hf2;
      simplify_eq/=.
    + rewrite (delete_present_found _ _ _ _ _ _ Hp1 Hf1).
      rewrite (delete_present_found _ _ _ _ _ _ Hp2 Hf2). cbn.
      assert (wish_views (delete j presents1)
              = wish_views (delete j presents2)) as Hw.
      { unfold wish_views in *. by rewrite !list_fmap_delete, Hp. }
      split; [by f_equal|]. by apply alike_upsert_presents.
    + unfold delete_present. run_service.
      rewrite (find_present_missing _ _ _ _ Hp1 Hf1).
      by rewrite (find_present_missing _ _ _ _ Hp2 Hf2).
  - unfold delete_present. run_service.
    rewrite (find_present_no_list _ _ _ Hp1).
    by rewrite (find_present_no_list _ _ _ Hp2).
Qed.

(** C6.  The wish view of a present is made of its id, title,
    description, link, price and favourite flag and of nothing else:
    changing a present's gifters does not change its wish view, and two
    presents that agree on the six fields have the same wish view.  Hence
    the four operations that answer with wish views give, on stores that
    differ only in who is assigned to what, the same answer, and leave
    stores that again differ only so. *)
Theorem wish_views_hide_assignments :
  (∀ p gifters,
     Present_to_present_wish_response (Present_set_assigned_to p gifters)
     = Present_to_present_wish_response p) ∧
  (∀ p1 p2,
     Present.id p1 = Present.id p2 → Present.title p1 = Present.title p2 →
     Present.description p1 = Present.description p2 →
     Present.link p1 = Present.link p2 →
     Present.price p1 = Present.price p2 →
     Present.favourite p1 = Present.favourite p2 →
     Present_to_present_wish_response p1
     = Present_to_present_wish_response p2) ∧
  (∀ user, hides_assignments (get_user_present_wish_list user)) ∧
  (∀ user present_data,
     hides_assignments (create_present user present_data)) ∧
  (∀ user present_id present_data,
     hides_assignments (update_present user present_id present_data)) ∧
  (∀ user present_id, hides_assignments (delete_present user present_id)).
Proof.
  split; [done|]. split.
  { intros p1 p2 H1 H2 H3 H4 H5 H6. unfold Present_to_present_wish_response.
    by rewrite H1, H2, H3, H4, H5, H6. }
  split; [apply wish_list_hides|]. split; [apply create_hides|].
  split; [apply update_hides|apply delete_hides].
Qed.

Lemma wish_views_hide_assignments_alice :
  alike_to_wishers sample_store unreserved_store ∧
  (update_present "alice" 1 (novel_update 1) sample_store).1
  = (update_present "alice" 1 (novel_update 1) unreserved_store).1 ∧
  (get_user_present_wish_list "alice" sample_store).1
  = (get_user_present_wish_list "alice" unreserved_store).1.
Proof.
  assert (alike_to_wishers sample_store unreserved_store) as Ha.
  { unfold alike_to_wishers. split_and!; reflexivity. }
  destruct wish_views_hide_assignments as (_ & _ & Hlist & _ & Hupdate & _).
  split; [exact Ha|]. split.
  - by apply Hupdate.
  - by apply Hlist.
Defined.

(** ** What serving a request writes *)

Lemma handle_state {A} (op : M A) (f : A → response) s :
  ((v ← op; mret (f v)) s).2 = (op s).2 ∧
  ((v ← op; mret (f v)) s).1
  = match (op s).1 with Return v => Return (f v) | Raise e => Raise e end.
Proof. run_service. by destruct (op s) as [[v|e] s']. Qed.

(** Serving a request writes in one of the ways listed by [written]; and
    when it raises a not-found error it has written nothing. *)
Lemma handle_written r s :
  written r s (handle r s).2 ∧
  (∀ e, (handle r s).1 = Raise e → is_not_found e → (handle r s).2 = s).
Proof.
  destruct r as [|user|user|user d|user present_id d|user present_id|wisher
                 |gifter wisher present_id|gifter wisher present_id];
    unfold handle;
    match goal with
    | |- context [mbind _ ?op] =>
        destruct (handle_state op
                    (λ v, ltac:(first [exact (UserList v) | exact (UserView v)
                                      | exact (WishList v)
                                      | exact (GiftList v)])) s)
          as [-> ->]
    end.
  - split; [constructor|done].
  - unfold get_user_data. run_service.
    destruct (FileStore.get_user user s); cbn; (split; [constructor|done]).
  - unfold get_user_present_wish_list. run_service.
    destruct (FileStore.get_presents user s); cbn;
      (split; [constructor|done]).
  - destruct (FileStore.get_user user s) as [wish_user|] eqn:Hu.
    + destruct (FileStore.get_presents user s) as [presents|] eqn:Hp.
      * rewrite (create_present_found _ d _ _ _ Hu Hp). cbn.
        split; [by constructor|done].
      * rewrite (create_present_no_list _ d _ _ Hu Hp). cbn.
        split; [by constructor|]. by intros e [= <-] [].
    + rewrite (create_present_no_user _ d _ Hu). split; [constructor|done].
  - destruct (FileStore.get_presents user s) as [presents|] eqn:Hp.
    + destruct (first_with_id present_id presents) as [[i q]|] eqn:Hf.
      * rewrite (update_present_found _ _ d _ _ _ _ Hp Hf). cbn.
        split; [by econstructor|done].
      * unfold update_present. run_service.
        rewrite (find_present_missing _ _ _ _ Hp Hf).
        split; [constructor|done].
    + unfold update_present. run_service.
      rewrite (find_present_no_list _ _ _ Hp). split; [constructor|done].
  - destruct (FileStore.get_presents user s) as [presents|] eqn:Hp.
    + destruct (first_with_id present_id presents) as [[i q]|] eqn:Hf.
      * rewrite (delete_present_found _ _ _ _ _ _ Hp Hf). cbn.
        split; [by econstructor|done].
      * unfold delete_present. run_service.
        rewrite (find_present_missing _ _ _ _ Hp Hf).
        split; [constructor|done].
    + unfold delete_present. run_service.
      rewrite (find_present_no_list _ _ _ Hp). split; [constructor|done].
  - unfold get_user_present_gift_list. run_service.
    destruct (FileStore.get_presents wisher s); cbn;
      (split; [constructor|done]).
  - destruct (FileStore.get_presents wisher s) as [presents|] eqn:Hp.
    + destruct (first_with_id present_id presents) as [[i q]|] eqn:Hf.
      * rewrite (assign_user_found _ _ gifter _ _ _ _ Hp Hf).
        destruct (decide (gifter ∈ Present.assigned_to q)); cbn;
          (split; [by econstructor|done]).
      * unfold assign_user_to_present. run_service.
        rewrite (find_present_missing _ _ _ _ Hp Hf).
        split; [constructor|done].
    + unfold assign_user_to_present. run_service.
      rewrite (find_present_no_list _ _ _ Hp). split; [constructor|done].
  - destruct (FileStore.get_presents wisher s) as [presents|] eqn:Hp.
    + destruct (first_with_id present_id presents) as [[i q]|] eqn:Hf.
      * rewrite (remove_user_found _ _ gifter _ _ _ _ Hp Hf).
        destruct (decide (gifter ∈ Present.assigned_to q)); cbn;
          (split; [by econstructor|done]).
      * unfold remove_user_from_present. run_service.
        rewrite (find_present_missing _ _ _ _ Hp Hf).
        split; [constructor|done].
    + unfold remove_user_from_present. run_service.
      rewrite (find_present_no_list _ _ _ Hp). split; [constructor|done].
Qed.

(** ** The invariants of the data model *)

Lemma ids_insert_same (presents : list Present.t) i q q' :
  presents !! i = Some q →
  Present.id q' = Present.id q →
  Present.id <$> <[i := q']> presents = Present.id <$> presents.
Proof.
  intros Hi Hid. rewrite list_fmap_insert, Hid.
  apply list_insert_id. by rewrite list_lookup_fmap, Hi.
Qed.

Lemma unique_ids_delete (presents : list Present.t) (i : nat) :
  unique_ids presents → unique_ids (delete i presents).
Proof.
  unfold unique_ids. rewrite list_fmap_delete.
  intros Hnd. eapply sublist_NoDup; [exact Hnd|apply sublist_delete].
Qed.

Lemma unique_ids_append presents counter q :
  unique_ids presents → ids_below counter presents →
  Present.id q = counter →
  unique_ids (presents ++ [q]) ∧ ids_below (counter + 1) (presents ++ [q]).
Proof.
  unfold unique_ids, ids_below. intros Hnd Hlt Hq. split.
  - rewrite fmap_app. apply NoDup_app.
    split_and!; [done| |apply NoDup_singleton].
    intros x Hx Hx'. apply list_elem_of_fmap in Hx as (p & -> & Hp).
    apply list_elem_of_singleton in Hx'. cbn in Hx'.
    rewrite Forall_forall in Hlt. specialize (Hlt p Hp). lia.
  - apply Forall_app. split.
    + eapply Forall_impl; [done|]. cbn. lia.
    + apply Forall_singleton. lia.
Qed.

Lemma gifters_append (gifters : list string) gifter :
  NoDup gifters → gifter ∉ gifters → NoDup (gifters ++ [gifter]).
Proof.
  intros Hnd Hin. apply NoDup_app. split_and!; [done| |apply NoDup_singleton].
  by intros x Hx ->%list_elem_of_singleton.
Qed.

Lemma gifters_at (presents : list Present.t) i q :
  duplicate_free_gifters presents → presents !! i = Some q →
  NoDup (Present.assigned_to q).
Proof.
  unfold duplicate_free_gifters. rewrite Forall_lookup. intros H Hi.
  by apply (H i q).
Qed.

(** Whatever a request writes, gifters stay duplicate-free. *)
Lemma written_gifters r s s' :
  written r s s' → gifters_invariant s → gifters_invariant s'.
Proof.
  unfold gifters_invariant.
  destruct 1 as [r s|user present_id d s presents i q Hp Hf
                |user present_id s presents i q Hp Hf
                |gifter user present_id s presents i q Hp Hf Hin
                |gifter user present_id s presents i q Hp Hf Hin
                |user d s wish_user Hu Hp|user d s wish_user presents Hu Hp];
    intros Hinv; try done;
    try (pose proof (first_with_id_lookup _ _ _ _ Hf) as (Hi & _ & _));
    pose proof (map_Forall_lookup_1 _ _ _ _ Hinv Hp) as Hps; cbn in Hps;
    cbn; apply map_Forall_insert_2; try done.
  - apply Forall_insert; [done|]. cbn. by eapply gifters_at.
  - by apply Forall_delete.
  - apply Forall_insert; [done|]. cbn. apply gifters_append; [|done].
    by eapply gifters_at.
  - apply Forall_insert; [done|]. cbn. apply remove_first_NoDup.
    by eapply gifters_at.
  - apply Forall_app. split; [done|]. apply Forall_singleton. cbn.
    apply NoDup_nil_2.
Qed.

Lemma list_ok_same_ids counter (presents : list Present.t) i q q' :
  presents !! i = Some q →
  Present.id q' = Present.id q →
  NoDup (Present.assigned_to q') →
  list_ok counter presents → list_ok counter (<[i := q']> presents).
Proof.
  intros Hi Hid Hnd [[Hids Hgifters] Hbelow]. split; [split|].
  - unfold unique_ids. by rewrite (ids_insert_same _ _ _ _ Hi Hid).
  - by apply Forall_insert.
  - destruct counter as [c|]; [|done]. cbn in *.
    apply Forall_insert; [done|]. rewrite Hid.
    unfold ids_below in Hbelow. rewrite Forall_lookup in Hbelow.
    by apply (Hbelow i q).
Qed.

Lemma list_ok_delete counter (presents : list Present.t) (i : nat) :
  list_ok counter presents → list_ok counter (delete i presents).
Proof.
  intros [[Hids Hgifters] Hbelow]. split; [split|].
  - by apply unique_ids_delete.
  - by apply Forall_delete.
  - destruct counter as [c|]; [|done]. by apply Forall_delete.
Qed.

Lemma store_invariants_upsert s user presents presents' :
  store_invariants s →
  FileStore.get_presents user s = Some presents →
  (∀ counter, list_ok counter presents → list_ok counter presents') →
  store_invariants (FileStore.upsert_presents user presents' s).
Proof.
  intros [Hnames Hlists] Hp Hok. split; [done|]. cbn.
  apply map_Forall_insert_2; [|done].
  apply Hok. by apply (map_Forall_lookup_1 _ _ _ _ Hlists Hp).
Qed.

(** Stepping the counter of a user filed under their own name. *)
Lemma step_counter s user wish_user :
  named_by_key s →
  FileStore.get_user user s = Some wish_user →
  let wish_user' :=
    User_set_present_id wish_user (User.present_id wish_user + 1) in
  let s1 :=
    FileStore.upsert_user wish_user' (FileStore.mutate_user user wish_user' s)
  in
  FileStore._users s1 = <[user := wish_user']> (FileStore._users s) ∧
  FileStore._presents s1 = FileStore._presents s ∧
  named_by_key s1 ∧
  counter_of s1 user = Some (User.present_id wish_user + 1) ∧
  (∀ k, k ≠ user → counter_of s1 k = counter_of s k).
Proof.
  intros Hnames Hu wish_user' s1.
  pose proof (map_Forall_lookup_1 _ _ _ _ Hnames Hu) as Hname. cbn in Hname.
  assert (FileStore._users s1 = <[user := wish_user']> (FileStore._users s))
    as Husers.
  { cbn. by rewrite Hname, insert_insert_eq. }
  split; [done|]. split; [done|]. unfold named_by_key, counter_of.
  rewrite Husers. split; [by apply map_Forall_insert_2|].
  split; [by rewrite lookup_insert_eq|].
  intros k Hk. by rewrite lookup_insert_ne.
Qed.

(** What a request writes keeps the invariants of the store, provided an
    update carries the id of the present it updates. *)
Lemma written_invariants r s s' :
  written r s s' → keeps_id r → store_invariants s → store_invariants s'.
Proof.
  destruct 1 as [r s|user present_id d s presents i q Hp Hf
                |user present_id s presents i q Hp Hf
                |gifter user present_id s presents i q Hp Hf Hin
                |gifter user present_id s presents i q Hp Hf Hin
                |user d s wish_user Hu Hp|user d s wish_user presents Hu Hp];
    intros Hkeep Hinv; try done;
    try (pose proof (first_with_id_lookup _ _ _ _ Hf) as (Hi & Hid & _)).
  - eapply store_invariants_upsert; [done..|]. intros c Hok.
    apply (list_ok_same_ids _ _ _ q); [done|cbn in *; congruence| |done].
    cbn. eapply gifters_at; [apply Hok|done].
  - eapply store_invariants_upsert; [done..|]. intros c.
    apply list_ok_delete.
  - eapply store_invariants_upsert; [done..|]. intros c Hok.
    apply (list_ok_same_ids _ _ _ q); [done..| |done].
    cbn. apply gifters_append; [|done]. eapply gifters_at; [apply Hok|done].
  - eapply store_invariants_upsert; [done..|]. intros c Hok.
    apply (list_ok_same_ids _ _ _ q); [done..| |done].
    cbn. apply remove_first_NoDup. eapply gifters_at; [apply Hok|done].
  - destruct Hinv as [Hnames Hlists].
    destruct (step_counter _ _ _ Hnames Hu) as (_ & Hpres & Hn1 & _ & Hother).
    split; [done|]. rewrite Hpres. intros k x Hk.
    rewrite Hother; [by apply Hlists|]. intros ->.
    unfold FileStore.get_presents in Hp. congruence.
  - destruct Hinv as [Hnames Hlists].
    destruct (step_counter _ _ _ Hnames Hu) as (_ & Hpres & Hn1 & Hc & Hother).
    split; [done|]. cbn -[FileStore.upsert_user]. rewrite Hpres.
    intros k x. rewrite lookup_insert. case_decide as Hk.
    + intros [= <-]. subst k.
      change (counter_of _ user)
        with (counter_of
                (FileStore.upsert_user
                   (User_set_present_id wish_user
                      (User.present_id wish_user + 1))
                   (FileStore.mutate_user user
                      (User_set_present_id wish_user
                         (User.present_id wish_user + 1)) s)) user).
      rewrite Hc.
      pose proof (map_Forall_lookup_1 _ _ _ _ Hlists Hp) as [[Hids Hg] Hb].
      assert (counter_of s user = Some (User.present_id wish_user)) as Hcs.
      { unfold counter_of. unfold FileStore.get_user in Hu. by rewrite Hu. }
      rewrite Hcs in Hb. cbn in Hb.
      destruct (unique_ids_append presents (User.present_id wish_user)
                  (PresentCreateData_to_present d
                     (User.present_id wish_user) []) Hids Hb eq_refl)
        as [Hids' Hb'].
      split; [split|]; [done| |done].
      apply Forall_app. split; [done|]. apply Forall_singleton. cbn.
      apply NoDup_nil_2.
    + intros Hx.
      change (counter_of _ k)
        with (counter_of
                (FileStore.upsert_user
                   (User_set_present_id wish_user
                      (User.present_id wish_user + 1))
                   (FileStore.mutate_user user
                      (User_set_present_id wish_user
                         (User.present_id wish_user + 1)) s)) k).
      rewrite Hother by done. by apply Hlists.
Qed.

Lemma sample_store_invariants : store_invariants sample_store.
Proof. apply (bool_decide_unpack _). by vm_compute. Qed.

(** C7 fails as stated: alice's list of a book and a bike satisfies both
    invariants, and after updating present 1 with a payload that carries
    id 2 her list holds two presents with id 2.  Likewise a list of one
    book with id 1 satisfies both, and when the owner's counter still
    stands at 1 a creation appends a second present with id 1.  And when
    a record named alice is also filed under another key, with a lower
    counter, a creation under that key files it as alice's, and alice's
    next creation mints the id of her bike again. *)
Lemma update_present_breaks_unique_ids :
  (list_invariants [book; bike] ∧
   ∃ presents',
     FileStore.get_presents "alice"
       (handle (Update_present "alice" 1 (novel_update 2)) sample_store).2
     = Some presents' ∧
     Present.id <$> presents' = [2; 2] ∧
     ¬ list_invariants presents') ∧
  (list_invariants [book] ∧
   ∃ presents',
     FileStore.get_presents "alice"
       (handle (Create_present "alice" book_payload) stale_counter_store).2
     = Some presents' ∧
     Present.id <$> presents' = [1; 1] ∧
     ¬ list_invariants presents') ∧
  (list_ok (counter_of misfiled_store "alice") [book; bike] ∧
   list_ok (counter_of misfiled_store "x") [] ∧
   ∃ presents',
     FileStore.get_presents "alice"
       (serve_all [Create_present "x" book_payload;
                   Create_present "alice" book_payload] misfiled_store)
     = Some presents' ∧
     Present.id <$> presents' = [1; 2; 2] ∧
     ¬ list_invariants presents').
Proof.
  assert (∀ x : Z, ¬ NoDup [x; x]) as Htwice.
  { intros x [Hin _]%NoDup_cons. apply Hin. by left. }
  split_and!; try (apply (bool_decide_unpack _); by vm_compute);
    (eexists; split; [reflexivity|]; split; [reflexivity|]);
    intros [Hids _]; unfold unique_ids in Hids; cbn in Hids.
  - by apply Htwice in Hids.
  - by apply Htwice in Hids.
  - apply NoDup_cons in Hids as [_ Hids]. by apply Htwice in Hids.
Qed.

(** C7, amended.  Served from any store, any sequence of requests keeps
    every [assigned_to] duplicate-free if it was.  Served from a store in
    which, besides, ids are pairwise distinct within each list and below
    the counter of the list's owner, and every user is filed under their
    own name, a sequence of requests in which each update carries the id
    of the present it updates keeps all of that: ids pairwise distinct
    and below the owner's counter, gifters duplicate-free. *)
Theorem requests_preserve_invariants rs s :
  (gifters_invariant s → gifters_invariant (serve_all rs s)) ∧
  (Forall keeps_id rs → store_invariants s →
   store_invariants (serve_all rs s)).
Proof.
  split.
  - revert s. induction rs as [|r rs IH]; intros s Hinv; [done|]. cbn.
    apply IH. eapply written_gifters; [apply handle_written|done].
  - intros Hkeep. revert s.
    induction Hkeep as [|r rs Hr Hrs IH]; intros s Hinv; [done|]. cbn.
    apply IH. eapply written_invariants; [apply handle_written|done..].
Qed.

Lemma requests_preserve_invariants_alice :
  store_invariants
    (serve_all
       [Create_present "alice" book_payload;
        Assign_user_to_present "bob" "alice" 3;
        Update_present "alice" 1 (novel_update 1);
        Delete_present "alice" 2]
       sample_store).
Proof.
  apply requests_preserve_invariants.
  - repeat constructor.
  - apply (bool_decide_unpack _). by vm_compute.
Defined.

(** ** Minting ids *)














(** ** Errors and writes *)

(** C9, as the code has it.  A request that is answered with a not-found
    error has written nothing.  But [create_present] for a user who has a
    user record and no present list steps the counter, in memory and on
    file, and then stops with [AttributeError] at [presents.append]: the
    first of its two writes is applied and the second is not. *)
Theorem create_present_half_written :
  (∀ r s e,
     (handle r s).1 = Raise e → is_not_found e → (handle r s).2 = s) ∧
  (∀ user present_data s wish_user,
     FileStore.get_user user s = Some wish_user →
     FileStore.get_presents user s = None →
     let s' := (create_present user present_data s).2 in
     let wish_user' :=
       User_set_present_id wish_user (User.present_id wish_user + 1) in
     (create_present user present_data s).1 = Raise AttributeError ∧
     FileStore.get_user user s' = Some wish_user' ∧
     FileStore.users_yml s' !! User.name wish_user = Some wish_user' ∧
     FileStore._presents s' = FileStore._presents s ∧
     FileStore.presents_yml s' = FileStore.presents_yml s ∧
     s' ≠ s).
Proof.
  split; [intros r s; apply handle_written|].
  intros user d s wish_user Hu Hp s' wish_user'. unfold s'.
  rewrite (create_present_no_list _ d _ _ Hu Hp). cbn [fst snd].
  fold wish_user'.
  set (s1 := FileStore.upsert_user wish_user'
               (FileStore.mutate_user user wish_user' s)).
  assert (FileStore.get_user user s1 = Some wish_user') as Hu'.
  { unfold FileStore.get_user. cbn. rewrite lookup_insert.
    case_decide; [done|]. apply lookup_insert_eq. }
  split_and!; [done|exact Hu'|apply lookup_insert_eq|done..|].
  intros Heq. rewrite Heq, Hu in Hu'. injection Hu' as Hw.
  apply (f_equal User.present_id) in Hw. cbn in Hw. lia.
Qed.

Lemma create_present_half_written_alice :
  FileStore.get_user "alice" listless_store = Some alice ∧
  FileStore.get_presents "alice" listless_store = None ∧
  create_present "alice" book_payload listless_store
  = (Raise AttributeError,
     FileStore.init (<["alice" := User_set_present_id alice 4]> ∅) ∅) ∧
  (create_present "alice" book_payload listless_store).2 ≠ listless_store.
Proof.
  split; [reflexivity|]. split; [reflexivity|]. split; [reflexivity|].
  destruct create_present_half_written as [_ Hhalf].
  apply (Hhalf "alice" book_payload listless_store alice); reflexivity.
Defined.

(** * Further properties of the store and the service *)

(** ** Persistence *)

Lemma written_synced r s s' : written r s s' → synced s → synced s'.
Proof.
  destruct 1; intros [Hu Hp]; split; cbn; done.
Qed.

Lemma written_other_lists r s s' k :
  written r s s' → owner_of r ≠ Some k →
  FileStore.get_presents k s' = FileStore.get_presents k s.
Proof.
  unfold FileStore.get_presents.
  destruct 1; cbn; intros Hk; try done;
    apply lookup_insert_ne; congruence.
Qed.

Lemma written_users r s s' :
  written r s s' → is_create r = false →
  FileStore._users s' = FileStore._users s ∧
  FileStore.users_yml s' = FileStore.users_yml s.
Proof. by destruct 1. Qed.

(** X1.  The files follow the dictionaries.  A store is in step after
    loading; each writing method of the store leaves the file of its table
    equal to the dictionary; and a store that is in step is in step again
    after any sequence of requests, including those that raise: no route
    leaves a mutation of a stored object unsaved. *)
Theorem files_follow_memory :
  (∀ users presents, synced (FileStore.init users presents)) ∧
  (∀ s user name presents,
     let users_saved s' := FileStore.users_yml s' = FileStore._users s' in
     let presents_saved s' :=
       FileStore.presents_yml s' = FileStore._presents s' in
     users_saved (FileStore.upsert_user user s) ∧
     presents_saved (FileStore.upsert_presents name presents s) ∧
     (is_Some (FileStore.get_user name s) →
      users_saved (FileStore.delete_user name s)) ∧
     (is_Some (FileStore.get_presents name s) →
      presents_saved (FileStore.delete_presents name s))) ∧
  (∀ rs s, synced s → synced (serve_all rs s)).
Proof.
  split; [done|]. split.
  - intros s user name presents. cbn. split_and!; [done..| |].
    + intros Hsome. unfold FileStore.delete_user.
      by rewrite decide_True.
    + intros Hsome. unfold FileStore.delete_presents.
      by rewrite decide_True.
  - intros rs. induction rs as [|r rs IH]; intros s Hs; [done|]. cbn.
    apply IH. eapply written_synced; [apply handle_written|done].
Qed.

Lemma files_follow_memory_alice :
  synced sample_store ∧
  synced
    (serve_all
       [Create_present "alice" book_payload;
        Assign_user_to_present "bob" "alice" 2;
        Update_present "carol" 1 (novel_update 1);
        Create_present "carol" book_payload;
        Delete_present "alice" 1]
       sample_store).
Proof.
  split; [done|].
  destruct files_follow_memory as (_ & _ & Hserve). by apply Hserve.
Defined.

(** X2.  A request touches one list only.  Whatever a request does, the
    present list of every user other than the owner named in the request
    is afterwards what it was; and unless the request is a creation the
    users, in memory and on file, are what they were.  In a store whose
    users are filed under their own name a creation changes no user record
    other than the owner's. *)
Theorem requests_leave_others_alone r s :
  (∀ k, owner_of r ≠ Some k →
     FileStore.get_presents k (handle r s).2 = FileStore.get_presents k s) ∧
  (is_create r = false →
   FileStore._users (handle r s).2 = FileStore._users s ∧
   FileStore.users_yml (handle r s).2 = FileStore.users_yml s) ∧
  (named_by_key s →
   ∀ user present_data k,
     r = Create_present user present_data → k ≠ user →
     FileStore.get_user k (handle r s).2 = FileStore.get_user k s).
Proof.
  destruct (handle_written r s) as [Hw _]. split_and!.
  - intros k Hk. by eapply written_other_lists.
  - by apply written_users.
  - intros Hnames user d k -> Hk.
    remember (handle (Create_present user d) s).2 as s' eqn:Hs'.
    clear Hs'.
    inversion Hw as [| | | | |? ? ? w Hu Hp|? ? ? w ps Hu Hp]; subst;
      [done|..];
      destruct (step_counter _ _ _ Hnames Hu) as (Husers & _);
      unfold FileStore.get_user; cbn -[FileStore.upsert_user];
      rewrite Husers; by apply lookup_insert_ne.
Qed.

Lemma requests_leave_others_alone_bob :
  named_by_key sample_store ∧
  FileStore.get_presents "bob"
    (handle (Delete_present "alice" 1) sample_store).2
  = Some [] ∧
  FileStore.get_user "bob"
    (handle (Create_present "alice" book_payload) sample_store).2
  = Some bob.
Proof.
  assert (named_by_key sample_store) as Hnames.
  { apply (bool_decide_unpack _). by vm_compute. }
  destruct (requests_leave_others_alone (Delete_present "alice" 1)
              sample_store) as (Hlists & _ & _).
  destruct (requests_leave_others_alone
              (Create_present "alice" book_payload) sample_store)
    as (_ & _ & Hcreate).
  split; [done|]. split.
  - by rewrite Hlists.
  - by rewrite (Hcreate Hnames "alice" book_payload "bob").
Defined.

(** ** Looking a present up *)

Lemma first_with_id_known present_id (presents : list Present.t) :
  present_id ∈ Present.id <$> presents →
  ∃ i q, first_with_id present_id presents = Some (i, q).
Proof.
  intros (q & -> & Hq)%list_elem_of_fmap.
  destruct (list_find_elem_of (λ p, Present.id p = Present.id q) presents q)
    as [[i q'] Hf]; [done..|].
  by exists i, q'.
Qed.

Lemma first_with_id_unknown present_id (presents : list Present.t) :
  present_id ∉ (Present.id <$> presents) →
  first_with_id present_id presents = None.
Proof.
  intros Hnot. apply list_find_None, Forall_forall. intros q Hq Hid.
  apply Hnot, list_elem_of_fmap. by exists q.
Qed.

(** X3.  For a user with a present list, the lookup by id answers with
    the list, the first present that has the id and the position of that
    present ([list.index] compares whole presents, yet lands on the entry
    the filter found), and raises the not-found error of presents exactly
    when no present of the list has the id; the store is not touched. *)
Theorem find_present_first_match user present_id s presents :
  FileStore.get_presents user s = Some presents →
  (present_id ∈ Present.id <$> presents →
   ∃ i q,
     find_present_in_list_by_id user present_id s
     = (Return (presents, q, i), s) ∧
     presents !! i = Some q ∧ Present.id q = present_id ∧
     ∀ j q', (j < i)%nat → presents !! j = Some q' →
             Present.id q' ≠ present_id) ∧
  (present_id ∉ (Present.id <$> presents) →
   find_present_in_list_by_id user present_id s
   = (Raise (PresentNotFound user present_id), s)).
Proof.
  intros Hp. split.
  - intros Hin. destruct (first_with_id_known _ _ Hin) as (i & q & Hf).
    exists i, q. split; [by apply find_present_found|].
    apply list_find_Some in Hf as (Hi & Hid & Hmin).
    split_and!; [done..|]. intros j q' Hj Hq'. by apply (Hmin j q').
  - intros Hnot. apply (find_present_missing _ _ _ presents); [done|].
    by apply first_with_id_unknown.
Qed.

Lemma find_present_first_match_alice :
  ∃ i q,
    find_present_in_list_by_id "alice" 2 sample_store
    = (Return ([book; bike], q, i), sample_store) ∧
    [book; bike] !! i = Some q ∧ Present.id q = 2 ∧
    ∀ j q', (j < i)%nat → [book; bike] !! j = Some q' →
            Present.id q' ≠ 2.
Proof.
  apply (find_present_first_match "alice" 2 sample_store [book; bike]);
    [reflexivity|].
  apply (bool_decide_unpack _). by vm_compute.
Defined.

(** X4.  For a user with a present list in which no present has the id
    asked for (any id at all when the list is empty), [update_present],
    [delete_present], [assign_user_to_present] and
    [remove_user_from_present] raise the 404 error of presents, whose
    message names the id and the user and differs from the message for an
    unknown user; nothing is written. *)
Theorem mutators_unknown_id_raise_PresentNotFound
    user present_id present_data gifter s presents :
  FileStore.get_presents user s = Some presents →
  present_id ∉ (Present.id <$> presents) →
  let not_found := PresentNotFound user present_id in
  update_present user present_id present_data s = (Raise not_found, s) ∧
  delete_present user present_id s = (Raise not_found, s) ∧
  assign_user_to_present user present_id gifter s = (Raise not_found, s) ∧
  remove_user_from_present user present_id gifter s = (Raise not_found, s) ∧
  is_not_found not_found ∧
  (∀ anyone, not_found ≠ UserNotFound anyone).
Proof.
  intros Hp Hnot not_found.
  pose proof (find_present_missing _ _ _ _ Hp
                (first_with_id_unknown _ _ Hnot)) as Hfind.
  unfold update_present, delete_present, assign_user_to_present,
    remove_user_from_present.
  run_service. rewrite Hfind. split_and!; done.
Qed.

Lemma mutators_unknown_id_bob :
  delete_present "bob" 1 sample_store
  = (Raise (PresentNotFound "bob" 1), sample_store) ∧
  assign_user_to_present "alice" 7 "bob" sample_store
  = (Raise (PresentNotFound "alice" 7), sample_store).
Proof.
  split.
  - apply (mutators_unknown_id_raise_PresentNotFound
             "bob" 1 (novel_update 1) "alice" sample_store []);
      [reflexivity|]. apply (bool_decide_unpack _). by vm_compute.
  - apply (mutators_unknown_id_raise_PresentNotFound
             "alice" 7 (novel_update 7) "bob" sample_store [book; bike]);
      [reflexivity|]. apply (bool_decide_unpack _). by vm_compute.
Defined.

(** ** Deleting a present *)

Lemma delete_found_id (ids : list Z) i (x : Z) :
  ids !! i = Some x → NoDup ids →
  (x ∉ delete i ids) ∧ ∀ y, y ≠ x → y ∈ ids → y ∈ delete i ids.
Proof.
  intros Hi Hnd. rewrite delete_take_drop.
  rewrite <- (take_drop_middle ids i x Hi) in Hnd.
  apply NoDup_app in Hnd as (_ & Hdisj & [Hx _]%NoDup_cons). split.
  - rewrite not_elem_of_app. split; [|done].
    intros Hin. apply (Hdisj _ Hin). by left.
  - intros y Hy. rewrite <- (take_drop_middle ids i x Hi) at 1.
    rewrite !elem_of_app, elem_of_cons.
    intros [Hy1|[->|Hy2]]; [by left|done|by right].
Qed.

(** X5.  [delete_present] removes the first present that has the id and
    nothing else: it answers with the wish views of the list without that
    entry, which is also the list stored afterwards, one entry shorter and
    with the remaining presents in their order.  When the ids of the list
    were pairwise distinct the id is gone (deleting it again raises the
    not-found error of presents) and every other id is still there. *)
Theorem delete_present_removes_first user present_id s presents i q :
  FileStore.get_presents user s = Some presents →
  first_with_id present_id presents = Some (i, q) →
  let s' := (delete_present user present_id s).2 in
  let presents' := delete i presents in
  (delete_present user present_id s).1 = Return (wish_views presents') ∧
  FileStore.get_presents user s' = Some presents' ∧
  (length presents' + 1 = length presents)%nat ∧
  presents' `sublist_of` presents ∧
  (unique_ids presents →
   (present_id ∉ Present.id <$> presents') ∧
   delete_present user present_id s'
   = (Raise (PresentNotFound user present_id), s') ∧
   ∀ other, other ≠ present_id →
     other ∈ Present.id <$> presents → other ∈ Present.id <$> presents').
Proof.
  intros Hp Hf s' presents'.
  pose proof (first_with_id_lookup _ _ _ _ Hf) as (Hi & Hid & Hlt).
  assert (FileStore.get_presents user s' = Some presents') as Hp'.
  { unfold s'. rewrite (delete_present_found _ _ _ _ _ _ Hp Hf).
    apply lookup_insert_eq. }
  split_and!.
  - by rewrite (delete_present_found _ _ _ _ _ _ Hp Hf).
  - done.
  - unfold presents'. rewrite length_delete by done. lia.
  - apply sublist_delete.
  - intros Hids. unfold unique_ids in Hids.
    assert ((Present.id <$> presents) !! i = Some present_id) as Hi'.
    { by rewrite list_lookup_fmap, Hi, <- Hid. }
    destruct (delete_found_id _ _ _ Hi' Hids) as [Hgone Hkept].
    unfold presents'. rewrite list_fmap_delete. split_and!; [done| |done].
    unfold delete_present. run_service.
    rewrite (find_present_missing _ _ _ _ Hp'); [done|].
    apply first_with_id_unknown. unfold presents'.
    by rewrite list_fmap_delete.
Qed.

Lemma delete_present_removes_first_alice :
  unique_ids [book; bike] ∧
  FileStore.get_presents "alice" (delete_present "alice" 1 sample_store).2
  = Some [bike] ∧
  delete_present "alice" 1 (delete_present "alice" 1 sample_store).2
  = (Raise (PresentNotFound "alice" 1),
     (delete_present "alice" 1 sample_store).2).
Proof.
  assert (unique_ids [book; bike]) as Hids.
  { apply (bool_decide_unpack _). by vm_compute. }
  destruct (delete_present_removes_first
              "alice" 1 sample_store [book; bike] 0 book)
    as (_ & Hp' & _ & _ & Hunique); [reflexivity..|].
  destruct (Hunique Hids) as (_ & Hagain & _). by split_and!.
Defined.

(** ** Answers and what is stored *)

Lemma read_back user presents s :
  FileStore.get_presents user s = Some presents →
  get_user_present_wish_list user s = (Return (wish_views presents), s) ∧
  get_user_present_gift_list user s
  = (Return (Present_to_present_gift_response <$> presents), s).
Proof.
  intros Hp. unfold get_user_present_wish_list, get_user_present_gift_list.
  run_service. by rewrite Hp.
Qed.

Lemma get_presents_upsert user presents s :
  FileStore.get_presents user (FileStore.upsert_presents user presents s)
  = Some presents.
Proof. apply lookup_insert_eq. Qed.

(** X6.  Every editing operation that answers, answers with the owner's
    whole list as it is stored when the operation is over: reading the
    wish list (after a creation, an update or a deletion) or the gift list
    (after an assignment or its removal) straight afterwards returns the
    very same answer. *)
Theorem mutators_answer_with_stored_list user s :
  (∀ present_data v,
     let result := create_present user present_data s in
     result.1 = Return v →
     get_user_present_wish_list user result.2 = (Return v, result.2)) ∧
  (∀ present_id present_data v,
     let result := update_present user present_id present_data s in
     result.1 = Return v →
     get_user_present_wish_list user result.2 = (Return v, result.2)) ∧
  (∀ present_id v,
     let result := delete_present user present_id s in
     result.1 = Return v →
     get_user_present_wish_list user result.2 = (Return v, result.2)) ∧
  (∀ present_id gifter v,
     let result := assign_user_to_present user present_id gifter s in
     result.1 = Return v →
     get_user_present_gift_list user result.2 = (Return v, result.2)) ∧
  (∀ present_id gifter v,
     let result := remove_user_from_present user present_id gifter s in
     result.1 = Return v →
     get_user_present_gift_list user result.2 = (Return v, result.2)).
Proof.
  split_and!.
  - intros d v.
    destruct (FileStore.get_user user s) as [wish_user|] eqn:Hu;
      [|by rewrite (create_present_no_user _ d _ Hu)].
    destruct (FileStore.get_presents user s) as [presents|] eqn:Hp;
      [|by rewrite (create_present_no_list _ d _ _ Hu Hp)].
    rewrite (create_present_found _ d _ _ _ Hu Hp). cbn. intros [= <-].
    apply read_back, get_presents_upsert.
  - intros present_id d v.
    destruct (FileStore.get_presents user s) as [presents|] eqn:Hp.
    + destruct (first_with_id present_id presents) as [[i q]|] eqn:Hf.
      * rewrite (update_present_found _ _ d _ _ _ _ Hp Hf). cbn.
        intros [= <-]. apply read_back, get_presents_upsert.
      * unfold update_present. run_service.
        by rewrite (find_present_missing _ _ _ _ Hp Hf).
    + unfold update_present. run_service.
      by rewrite (find_present_no_list _ _ _ Hp).
  - intros present_id v.
    destruct (FileStore.get_presents user s) as [presents|] eqn:Hp.
    + destruct (first_with_id present_id presents) as [[i q]|] eqn:Hf.
      * rewrite (delete_present_found _ _ _ _ _ _ Hp Hf). cbn.
        intros [= <-]. apply read_back, get_presents_upsert.
      * unfold delete_present. run_service.
        by rewrite (find_present_missing _ _ _ _ Hp Hf).
    + unfold delete_present. run_service.
      by rewrite (find_present_no_list _ _ _ Hp).
  - intros present_id gifter v.
    destruct (FileStore.get_presents user s) as [presents|] eqn:Hp.
    + destruct (first_with_id present_id presents) as [[i q]|] eqn:Hf.
      * rewrite (assign_user_found _ _ gifter _ _ _ _ Hp Hf).
        destruct (decide (gifter ∈ Present.assigned_to q)); cbn;
          intros [= <-]; [by apply read_back|].
        apply read_back, get_presents_upsert.
      * unfold assign_user_to_present. run_service.
        by rewrite (find_present_missing _ _ _ _ Hp Hf).
    + unfold assign_user_to_present. run_service.
      by rewrite (find_present_no_list _ _ _ Hp).
  - intros present_id gifter v.
    destruct (FileStore.get_presents user s) as [presents|] eqn:Hp.
    + destruct (first_with_id present_id presents) as [[i q]|] eqn:Hf.
      * rewrite (remove_user_found _ _ gifter _ _ _ _ Hp Hf).
        destruct (decide (gifter ∈ Present.assigned_to q)); cbn;
          intros [= <-]; [|by apply read_back].
        apply read_back, get_presents_upsert.
      * unfold remove_user_from_present. run_service.
        by rewrite (find_present_missing _ _ _ _ Hp Hf).
    + unfold remove_user_from_present. run_service.
      by rewrite (find_present_no_list _ _ _ Hp).
Qed.

Lemma mutators_answer_with_stored_list_alice :
  get_user_present_gift_list "alice"
    (assign_user_to_present "alice" 2 "bob" sample_store).2
  = (Return
       [Present_to_present_gift_response book;
        Present_to_present_gift_response
          (Present_set_assigned_to bike ["bob"])],
     (assign_user_to_present "alice" 2 "bob" sample_store).2).
Proof.
  destruct (mutators_answer_with_stored_list "alice" sample_store)
    as (_ & _ & _ & Hassign & _).
  by apply (Hassign 2 "bob").
Defined.

(** ** Updates that change nothing, and updates that follow each other *)

Lemma own_view_back q :
  PresentWishData_to_present (Present_to_present_wish_response q)
    (Present.assigned_to q) = q.
Proof. by destruct q. Qed.

Lemma upsert_same_presents user presents s :
  FileStore.get_presents user s = Some presents →
  FileStore._presents (FileStore.upsert_presents user presents s)
  = FileStore._presents s ∧
  (synced s → FileStore.upsert_presents user presents s = s).
Proof.
  intros Hp. unfold FileStore.get_presents in Hp.
  assert (<[user := presents]> (FileStore._presents s)
          = FileStore._presents s) as Hsame by by apply insert_id.
  split; [done|]. intros [Hu Hf]. destruct s as [us ps uf pf].
  unfold FileStore.upsert_presents, FileStore._save_presents. cbn in *.
  by rewrite Hsame, Hf.
Qed.

Lemma upsert_upsert_presents user presents1 presents2 s :
  FileStore.upsert_presents user presents2
    (FileStore.upsert_presents user presents1 s)
  = FileStore.upsert_presents user presents2 s.
Proof.
  unfold FileStore.upsert_presents, FileStore._save_presents. cbn.
  by rewrite insert_insert_eq.
Qed.

(** X7.  Sending a present's own wish view back as an update changes
    nothing: the answer is the wish list as it was, the list stored is the
    list that was stored, and if the files were in step with the
    dictionaries the whole store is as before. *)
Theorem update_with_own_view_changes_nothing
    user present_id s presents i q :
  FileStore.get_presents user s = Some presents →
  first_with_id present_id presents = Some (i, q) →
  let result :=
    update_present user present_id (Present_to_present_wish_response q) s in
  result.1 = Return (wish_views presents) ∧
  FileStore._presents result.2 = FileStore._presents s ∧
  FileStore._users result.2 = FileStore._users s ∧
  (synced s → result.2 = s).
Proof.
  intros Hp Hf result. unfold result.
  pose proof (first_with_id_lookup _ _ _ _ Hf) as (Hi & _ & _).
  rewrite (update_present_found _ _ _ _ _ _ _ Hp Hf). cbn [fst snd].
  rewrite own_view_back, (list_insert_id _ _ _ Hi).
  destruct (upsert_same_presents _ _ _ Hp) as [Hsame Hsynced].
  by split_and!.
Qed.

Lemma update_with_own_view_changes_nothing_alice :
  synced sample_store ∧
  (update_present "alice" 1 (Present_to_present_wish_response book)
     sample_store).2
  = sample_store.
Proof.
  assert (synced sample_store) as Hs by done.
  split; [done|].
  by apply (update_with_own_view_changes_nothing
              "alice" 1 sample_store [book; bike] 0 book).
Defined.

(** X8.  Of two updates of the same present the second wins: when the
    first payload carries the id that is looked up, updating with a second
    payload afterwards gives the answer and the store that the second
    update alone would have given.  In particular such an update done
    twice is the update done once. *)
Theorem last_update_wins user present_id d1 d2 s presents i q :
  FileStore.get_presents user s = Some presents →
  first_with_id present_id presents = Some (i, q) →
  PresentWishData.id d1 = present_id →
  update_present user present_id d2 (update_present user present_id d1 s).2
  = update_present user present_id d2 s ∧
  update_present user present_id d1 (update_present user present_id d1 s).2
  = update_present user present_id d1 s.
Proof.
  intros Hp Hf Hd1.
  assert (∀ d,
    update_present user present_id d (update_present user present_id d1 s).2
    = update_present user present_id d s) as Hwins; [|by split].
  intros d.
  rewrite (update_present_found _ _ d1 _ _ _ _ Hp Hf). cbn [snd].
  erewrite (update_present_found _ _ d);
    [|apply get_presents_upsert|by eapply first_with_id_insert].
  rewrite (update_present_found _ _ d _ _ _ _ Hp Hf). cbn.
  by rewrite list_insert_insert_eq, upsert_upsert_presents.
Qed.

Lemma last_update_wins_alice :
  update_present "alice" 1 (novel_update 1)
    (update_present "alice" 1 (Present_to_present_wish_response book)
       sample_store).2
  = update_present "alice" 1 (novel_update 1) sample_store.
Proof.
  apply (last_update_wins "alice" 1 (Present_to_present_wish_response book)
           (novel_update 1) sample_store [book; bike] 0 book); reflexivity.
Defined.

(** ** Operations that undo each other *)

Lemma first_with_id_appended present_id (presents : list Present.t) q :
  present_id ∉ (Present.id <$> presents) → Present.id q = present_id →
  first_with_id present_id (presents ++ [q]) = Some (length presents, q).
Proof.
  intros Hnot Hq. unfold first_with_id.
  rewrite list_find_app_r by by apply first_with_id_unknown.
  cbn. by rewrite decide_True.
Qed.

(** X9.  Creating a present and deleting the id just minted puts the list
    back: when no present of the list carries the value of the owner's
    counter, the deletion answers with the wish list as it was before the
    creation and the list stored is the old list again.  The counter is
    not put back: it stays one higher. *)
Theorem create_then_delete_restores_list
    user present_data s wish_user presents :
  FileStore.get_user user s = Some wish_user →
  FileStore.get_presents user s = Some presents →
  User.present_id wish_user ∉ (Present.id <$> presents) →
  let minted := User.present_id wish_user in
  let s1 := (create_present user present_data s).2 in
  (delete_present user minted s1).1 = Return (wish_views presents) ∧
  FileStore.get_presents user (delete_present user minted s1).2
  = Some presents ∧
  counter_of (delete_present user minted s1).2 user = Some (minted + 1).
Proof.
  intros Hu Hp Hfresh minted s1.
  set (new := PresentCreateData_to_present present_data minted []).
  assert (FileStore.get_presents user s1 = Some (presents ++ [new])) as Hp1.
  { unfold s1. rewrite (create_present_found _ present_data _ _ _ Hu Hp).
    apply get_presents_upsert. }
  assert (counter_of s1 user = Some (minted + 1)) as Hc1.
  { unfold s1. rewrite (create_present_found _ present_data _ _ _ Hu Hp).
    unfold counter_of. cbn. rewrite lookup_insert.
    case_decide; [done|]. by rewrite lookup_insert_eq. }
  pose proof (first_with_id_appended minted presents new Hfresh eq_refl)
    as Hf1.
  rewrite (delete_present_found _ _ _ _ _ _ Hp1 Hf1). cbn [fst snd].
  assert (delete (length presents) (presents ++ [new]) = presents) as ->.
  { by rewrite delete_middle, app_nil_r. }
  split_and!; [done|apply get_presents_upsert|done].
Qed.

Lemma create_then_delete_restores_list_alice :
  (3 ∉ Present.id <$> [book; bike]) ∧
  FileStore.get_presents "alice"
    (delete_present "alice" 3
       (create_present "alice" book_payload sample_store).2).2
  = Some [book; bike] ∧
  counter_of
    (delete_present "alice" 3
       (create_present "alice" book_payload sample_store).2).2 "alice"
  = Some 4.
Proof.
  assert (3 ∉ Present.id <$> [book; bike]) as Hfresh.
  { apply (bool_decide_unpack _). by vm_compute. }
  split; [done|].
  by apply (create_then_delete_restores_list
              "alice" book_payload sample_store alice [book; bike]).
Defined.

Lemma remove_first_appended (x : string) l :
  x ∉ l → remove_first x (l ++ [x]) = l.
Proof.
  induction l as [|y l IH]; cbn.
  - intros _. by rewrite decide_True.
  - intros [Hne Hl]%not_elem_of_cons.
    rewrite decide_False by done. by rewrite IH.
Qed.

Lemma set_own_assigned_to q :
  Present_set_assigned_to q (Present.assigned_to q) = q.
Proof. by destruct q. Qed.

(** X10.  Withdrawing a reservation just made puts everything back: when
    the gifter was not assigned to the present, assigning them and then
    removing them answers with the gift list as it was, stores the list
    that was stored, and, if the files were in step with the dictionaries,
    leaves the whole store as it was before the two calls. *)
Theorem assign_then_remove_restores
    user present_id gifter s presents i q :
  FileStore.get_presents user s = Some presents →
  first_with_id present_id presents = Some (i, q) →
  gifter ∉ Present.assigned_to q →
  let s1 := (assign_user_to_present user present_id gifter s).2 in
  let result := remove_user_from_present user present_id gifter s1 in
  result.1 = Return (Present_to_present_gift_response <$> presents) ∧
  FileStore._presents result.2 = FileStore._presents s ∧
  FileStore._users result.2 = FileStore._users s ∧
  (synced s → result.2 = s).
Proof.
  intros Hp Hf Hnot s1 result. unfold result, s1.
  pose proof (first_with_id_lookup _ _ _ _ Hf) as (Hi & Hid & _).
  rewrite (assign_user_found _ _ gifter _ _ _ _ Hp Hf).
  rewrite decide_False by done. cbn [snd].
  erewrite remove_user_found;
    [|apply get_presents_upsert|by eapply first_with_id_insert].
  cbn [Present.assigned_to Present_set_assigned_to].
  rewrite decide_True by (apply elem_of_app; right; by left).
  cbn [fst snd]. rewrite remove_first_appended by done.
  rewrite list_insert_insert_eq.
  change (Present_set_assigned_to
            (Present_set_assigned_to q (Present.assigned_to q ++ [gifter]))
            (Present.assigned_to q))
    with (Present_set_assigned_to q (Present.assigned_to q)).
  rewrite set_own_assigned_to, (list_insert_id _ _ _ Hi).
  rewrite upsert_upsert_presents.
  destruct (upsert_same_presents _ _ _ Hp) as [Hsame Hsynced].
  by split_and!.
Qed.

Lemma assign_then_remove_restores_alice :
  synced sample_store ∧
  ("carol" ∉ Present.assigned_to book) ∧
  (remove_user_from_present "alice" 1 "carol"
     (assign_user_to_present "alice" 1 "carol" sample_store).2).2
  = sample_store.
Proof.
  assert (synced sample_store) as Hs by done.
  assert ("carol" ∉ Present.assigned_to book) as Hnot.
  { apply (bool_decide_unpack _). by vm_compute. }
  split; [done|]. split; [done|].
  by apply (assign_then_remove_restores
              "alice" 1 "carol" sample_store [book; bike] 0 book).
Defined.

(** X11.  Removing a gifter takes out the first occurrence of their name
    and nothing else: the name occurs once less among the present's
    gifters, every other name as often as before and in the same order; so
    the gifter is still assigned afterwards exactly when the name was
    listed more than once.  The occurrence taken out is the one with no
    occurrence of the name before it. *)
Theorem remove_drops_one_occurrence
    user present_id gifter s presents i q :
  FileStore.get_presents user s = Some presents →
  first_with_id present_id presents = Some (i, q) →
  gifter ∈ Present.assigned_to q →
  ∃ presents' q',
    FileStore.get_presents user
      (remove_user_from_present user present_id gifter s).2
    = Some presents' ∧
    presents' !! i = Some q' ∧
    (occurrences gifter (Present.assigned_to q') + 1
     = occurrences gifter (Present.assigned_to q))%nat ∧
    (∀ other, other ≠ gifter →
       filter (λ x, x = other) (Present.assigned_to q')
       = filter (λ x, x = other) (Present.assigned_to q)) ∧
    Present.assigned_to q' `sublist_of` Present.assigned_to q ∧
    (gifter ∈ Present.assigned_to q'
     ↔ (2 ≤ occurrences gifter (Present.assigned_to q))%nat) ∧
    (∃ before after,
       Present.assigned_to q = before ++ gifter :: after ∧
       (gifter ∉ before) ∧
       Present.assigned_to q' = before ++ after).
Proof.
  intros Hp Hf Hin.
  pose proof (first_with_id_lookup _ _ _ _ Hf) as (Hi & _ & Hlt).
  rewrite (remove_user_found _ _ gifter _ _ _ _ Hp Hf).
  rewrite decide_True by done. cbn [snd].
  eexists _, _. split; [apply get_presents_upsert|].
  split; [by apply list_lookup_insert_eq|].
  cbn [Present.assigned_to Present_set_assigned_to].
  destruct (remove_first_cut gifter _ Hin) as (l1 & l2 & Hl & Hl1 & ->).
  rewrite Hl. rewrite !occurrences_app.
  assert (occurrences gifter (gifter :: l2) = S (occurrences gifter l2))
    as Hcons.
  { unfold occurrences. by rewrite filter_cons, decide_True. }
  rewrite Hcons, (occurrences_absent _ _ Hl1). split_and!.
  - lia.
  - intros other Hother. rewrite !filter_app, filter_cons.
    by rewrite decide_False by congruence.
  - apply sublist_app; [done|]. by apply sublist_cons.
  - rewrite elem_of_app. split.
    + intros [?|Hl2]; [done|].
      pose proof (occurrences_present _ _ Hl2). lia.
    + intros Hocc. right. destruct (decide (gifter ∈ l2)); [done|].
      rewrite (occurrences_absent gifter l2) in Hocc by done. lia.
  - by exists l1, l2.
Qed.

Lemma remove_drops_one_occurrence_alice :
  ∃ presents' q',
    FileStore.get_presents "alice"
      (remove_user_from_present "alice" 1 "bob" sample_store).2
    = Some presents' ∧
    presents' !! 0%nat = Some q' ∧
    (occurrences "bob" (Present.assigned_to q') + 1
     = occurrences "bob" (Present.assigned_to book))%nat.
Proof.
  destruct (remove_drops_one_occurrence
              "alice" 1 "bob" sample_store [book; bike] 0 book)
    as (presents' & q' & H1 & H2 & H3 & _); [reflexivity..| |].
  - apply (bool_decide_unpack _). by vm_compute.
  - by exists presents', q'.
Defined.

(** ** Users and their public view *)

(** What a request writes keeps users under their own name and leaves
    every user's public view as it was. *)
Lemma written_user_views r s s' :
  written r s s' → named_by_key s →
  named_by_key s' ∧
  ∀ k, User_to_user_data <$> FileStore.get_user k s'
       = User_to_user_data <$> FileStore.get_user k s.
Proof.
  destruct 1 as [| | | | |user d s wish_user Hu Hp
                 |user d s wish_user presents Hu Hp];
    intros Hnames; try done;
    destruct (step_counter _ _ _ Hnames Hu) as (Husers & _ & Hn1 & _);
    (split; [done|]); intros k; unfold FileStore.get_user in *.
  - rewrite Husers, lookup_insert. case_decide; [subst k|done].
    by rewrite Hu.
  - cbn -[FileStore.upsert_user]. rewrite Husers, lookup_insert.
    case_decide; [subst k|done]. by rewrite Hu.
Qed.

(** X12.  A user's public view goes through the store unharmed: the view
    of a record built from a view is that view, whatever counter is put in
    ([to_user], [to_user_data]); a record is given back by building it
    from its own view and counter; and once a record built from a view is
    upserted, [get_user_data] under the view's name answers with exactly
    that view, while an unknown name raises the not-found error of
    users. *)
Theorem user_view_round_trip :
  (∀ view counter,
     User_to_user_data (UserData_to_user view counter) = view) ∧
  (∀ user,
     UserData_to_user (User_to_user_data user) (User.present_id user)
     = user) ∧
  (∀ view counter s,
     let s' := FileStore.upsert_user (UserData_to_user view counter) s in
     get_user_data (UserData.name view) s' = (Return view, s')) ∧
  (∀ name s,
     FileStore.get_user name s = None →
     get_user_data name s = (Raise (UserNotFound name), s)).
Proof.
  split_and!.
  - by intros [].
  - by intros [].
  - intros [name alias icon] counter s s'. unfold get_user_data.
    run_service. unfold FileStore.get_user. cbn.
    by rewrite lookup_insert_eq.
  - intros name s Hu. unfold get_user_data. run_service. by rewrite Hu.
Qed.

Lemma user_view_round_trip_carol :
  FileStore.get_user "carol" sample_store = None ∧
  get_user_data "carol" sample_store
  = (Raise (UserNotFound "carol"), sample_store) ∧
  (get_user_data "carol"
     (FileStore.upsert_user
        (UserData_to_user (UserData.mk "carol" "Carol" "c.png") 1)
        sample_store)).1
  = Return (UserData.mk "carol" "Carol" "c.png").
Proof.
  destruct user_view_round_trip as (_ & _ & Hupsert & Hmissing).
  split; [reflexivity|]. split.
  - by apply Hmissing.
  - exact (f_equal fst
             (Hupsert (UserData.mk "carol" "Carol" "c.png") 1 sample_store)).
Defined.

(** X13.  No route changes what users look like.  In a store whose users
    are filed under their own name, after any sequence of requests
    [get_user_data] gives for every name the answer it gave before (the
    same view, or the same not-found error): creations step a counter,
    which the view does not show, and nothing else writes a user. *)
Theorem user_views_are_stable rs s name :
  named_by_key s →
  (get_user_data name (serve_all rs s)).1 = (get_user_data name s).1.
Proof.
  revert s. induction rs as [|r rs IH]; intros s Hnames; [done|]. cbn.
  destruct (written_user_views r s _ (proj1 (handle_written r s)) Hnames)
    as [Hnames' Hviews].
  rewrite (IH _ Hnames'). specialize (Hviews name).
  unfold get_user_data. run_service.
  destruct (FileStore.get_user name (handle r s).2),
    (FileStore.get_user name s); cbn in Hviews; try done.
  injection Hviews as Hname Halias Hicon. unfold User_to_user_data.
  by rewrite Hname, Halias, Hicon.
Qed.

Lemma user_views_are_stable_alice :
  named_by_key sample_store ∧
  (get_user_data "alice"
     (serve_all [Create_present "alice" book_payload;
                 Create_present "alice" book_payload;
                 Delete_present "alice" 1] sample_store)).1
  = Return (UserData.mk "alice" "Alice" "alice.png").
Proof.
  assert (named_by_key sample_store) as Hnames.
  { apply (bool_decide_unpack _). by vm_compute. }
  split; [done|]. by rewrite user_views_are_stable.
Defined.

(** X14.  [get_all_users] never fails and never writes; it answers with
    one view per user record, and a view is in the answer exactly when it
    is the view of a record of the store.  When users are filed under
    their own name the names in the answer are pairwise distinct. *)
Theorem get_all_users_lists_every_record s :
  ∃ views,
    get_all_users s = (Return views, s) ∧
    length views = size (FileStore._users s) ∧
    (∀ view, view ∈ views ↔
       ∃ k user, FileStore._users s !! k = Some user ∧
                 view = User_to_user_data user) ∧
    (named_by_key s → NoDup (UserData.name <$> views)).
Proof.
  eexists. split; [reflexivity|]. unfold FileStore.get_users.
  split_and!.
  - by rewrite !length_fmap, length_map_to_list.
  - intros view. rewrite list_elem_of_fmap. split.
    + intros (user & -> & ([k u] & -> & Hin)%list_elem_of_fmap).
      apply elem_of_map_to_list in Hin. by exists k, u.
    + intros (k & user & Hk & ->). exists user. split; [done|].
      apply list_elem_of_fmap. exists (k, user). split; [done|].
      by apply elem_of_map_to_list.
  - intros Hnames.
    assert (UserData.name <$>
              (User_to_user_data <$> (map_to_list (FileStore._users s)).*2)
            = (map_to_list (FileStore._users s)).*1) as ->.
    { rewrite <- !list_fmap_compose. apply Forall_fmap_ext_1, Forall_forall.
      intros [k u] Hin%elem_of_map_to_list. cbn. by apply Hnames in Hin. }
    apply NoDup_fst_map_to_list.
Qed.

Lemma get_all_users_lists_every_record_sample :
  ∃ views,
    get_all_users sample_store = (Return views, sample_store) ∧
    length views = 2%nat ∧
    NoDup (UserData.name <$> views).
Proof.
  destruct (get_all_users_lists_every_record sample_store)
    as (views & Hrun & Hlen & _ & Hnames).
  exists views. split; [done|]. split; [done|].
  apply Hnames. apply (bool_decide_unpack _). by vm_compute.
Defined.

(** ** Deleting from the store *)

(** X15.  [delete_user] removes the record filed under the name and
    nothing else: other records, every present list and the presents file
    are untouched (nothing cascades), deleting a name that is not there
    leaves the store as it is, and deleting twice is deleting once.
    Afterwards [get_user_data] raises the not-found error of users for
    that name, the wish list of that name is still answered as before, and
    [create_present] for it stops with [AttributeError], writing
    nothing. *)
Theorem delete_user_does_not_cascade name s :
  let s' := FileStore.delete_user name s in
  FileStore.get_user name s' = None ∧
  (∀ k, k ≠ name → FileStore.get_user k s' = FileStore.get_user k s) ∧
  FileStore._presents s' = FileStore._presents s ∧
  FileStore.presents_yml s' = FileStore.presents_yml s ∧
  (FileStore.get_user name s = None → s' = s) ∧
  FileStore.delete_user name s' = s' ∧
  get_user_data name s' = (Raise (UserNotFound name), s') ∧
  (get_user_present_wish_list name s').1
  = (get_user_present_wish_list name s).1 ∧
  (∀ present_data,
     create_present name present_data s' = (Raise AttributeError, s')).
Proof.
  intros s'.
  assert (FileStore.get_user name s' = None) as Hgone.
  { unfold s', FileStore.delete_user, FileStore.get_user.
    case_decide as Hsome; cbn; [apply lookup_delete_eq|].
    by apply eq_None_not_Some. }
  assert (FileStore._presents s' = FileStore._presents s) as Hpresents.
  { unfold s', FileStore.delete_user. by case_decide. }
  split_and!; try done.
  - intros k Hk. unfold s', FileStore.delete_user, FileStore.get_user.
    case_decide; cbn; [by apply lookup_delete_ne|done].
  - unfold s', FileStore.delete_user. by case_decide.
  - intros Hnone. unfold s', FileStore.delete_user.
    unfold FileStore.get_user in Hnone. rewrite decide_False; [done|].
    rewrite Hnone. by intros [? ?].
  - unfold FileStore.delete_user at 1. unfold FileStore.get_user in Hgone.
    rewrite decide_False; [done|]. rewrite Hgone. by intros [? ?].
  - unfold get_user_data. run_service. by rewrite Hgone.
  - assert (FileStore.get_presents name s' = FileStore.get_presents name s)
      as Hsame by (unfold FileStore.get_presents; by rewrite Hpresents).
    clearbody s'. unfold get_user_present_wish_list. run_service.
    rewrite Hsame. by destruct (FileStore.get_presents name s).
  - intros d. by apply create_present_no_user.
Qed.

(** X16.  [delete_presents] removes the list filed under the name and
    nothing else: other lists, every user record and the users file are
    untouched, deleting a list that is not there leaves the store as it
    is, and deleting twice is deleting once.  Afterwards the wish list
    and the gift list of that name raise the not-found error of users,
    [get_user_data] answers as before, and the editing operations stop
    with [TypeError], writing nothing. *)
Theorem delete_presents_does_not_cascade name s :
  let s' := FileStore.delete_presents name s in
  FileStore.get_presents name s' = None ∧
  (∀ k, k ≠ name →
     FileStore.get_presents k s' = FileStore.get_presents k s) ∧
  FileStore._users s' = FileStore._users s ∧
  FileStore.users_yml s' = FileStore.users_yml s ∧
  (FileStore.get_presents name s = None → s' = s) ∧
  FileStore.delete_presents name s' = s' ∧
  get_user_present_wish_list name s' = (Raise (UserNotFound name), s') ∧
  get_user_present_gift_list name s' = (Raise (UserNotFound name), s') ∧
  get_user_data name s' = ((get_user_data name s).1, s') ∧
  (∀ present_id gifter,
     assign_user_to_present name present_id gifter s'
     = (Raise TypeError, s')).
Proof.
  intros s'.
  assert (FileStore.get_presents name s' = None) as Hgone.
  { unfold s', FileStore.delete_presents, FileStore.get_presents.
    case_decide as Hsome; cbn; [apply lookup_delete_eq|].
    by apply eq_None_not_Some. }
  assert (FileStore._users s' = FileStore._users s) as Husers.
  { unfold s', FileStore.delete_presents. by case_decide. }
  split_and!; try done.
  - intros k Hk.
    unfold s', FileStore.delete_presents, FileStore.get_presents.
    case_decide; cbn; [by apply lookup_delete_ne|done].
  - unfold s', FileStore.delete_presents. by case_decide.
  - intros Hnone. unfold s', FileStore.delete_presents.
    unfold FileStore.get_presents in Hnone. rewrite decide_False; [done|].
    rewrite Hnone. by intros [? ?].
  - unfold FileStore.delete_presents at 1.
    unfold FileStore.get_presents in Hgone.
    rewrite decide_False; [done|]. rewrite Hgone. by intros [? ?].
  - unfold get_user_present_wish_list. run_service. by rewrite Hgone.
  - unfold get_user_present_gift_list. run_service. by rewrite Hgone.
  - assert (FileStore.get_user name s' = FileStore.get_user name s)
      as Hsame by (unfold FileStore.get_user; by rewrite Husers).
    clearbody s'. unfold get_user_data. run_service. rewrite Hsame.
    by destruct (FileStore.get_user name s).
  - intros present_id gifter. unfold assign_user_to_present. run_service.
    by rewrite (find_present_no_list _ _ _ Hgone).
Qed.

Lemma delete_user_does_not_cascade_carol :
  FileStore.get_user "carol" sample_store = None ∧
  FileStore.delete_user "carol" sample_store = sample_store.
Proof.
  split; [reflexivity|].
  by apply (delete_user_does_not_cascade "carol" sample_store).
Defined.

Lemma delete_presents_does_not_cascade_carol :
  FileStore.get_presents "carol" sample_store = None ∧
  FileStore.delete_presents "carol" sample_store = sample_store.
Proof.
  split; [reflexivity|].
  by apply (delete_presents_does_not_cascade "carol" sample_store).
Defined.

(** ** Upserting into the store *)

(** X17.  What is upserted is what is read back, and the last upsert
    wins: after [upsert_user] the record is found under its own name and
    every other name reads as before; after [upsert_presents] the list is
    found under the name given and every other name reads as before; a
    second upsert under the same name replaces the first altogether; and
    deleting what was upserted under a name that was free restores both
    dictionaries. *)
Theorem upsert_then_get s :
  (∀ user,
     let s' := FileStore.upsert_user user s in
     FileStore.get_user (User.name user) s' = Some user ∧
     (∀ k, k ≠ User.name user →
        FileStore.get_user k s' = FileStore.get_user k s) ∧
     FileStore._presents s' = FileStore._presents s) ∧
  (∀ name presents,
     let s' := FileStore.upsert_presents name presents s in
     FileStore.get_presents name s' = Some presents ∧
     (∀ k, k ≠ name →
        FileStore.get_presents k s' = FileStore.get_presents k s) ∧
     FileStore._users s' = FileStore._users s) ∧
  (∀ user1 user2,
     User.name user1 = User.name user2 →
     FileStore.upsert_user user2 (FileStore.upsert_user user1 s)
     = FileStore.upsert_user user2 s) ∧
  (∀ name presents1 presents2,
     FileStore.upsert_presents name presents2
       (FileStore.upsert_presents name presents1 s)
     = FileStore.upsert_presents name presents2 s) ∧
  (∀ user,
     FileStore.get_user (User.name user) s = None →
     FileStore._users
       (FileStore.delete_user (User.name user)
          (FileStore.upsert_user user s))
     = FileStore._users s) ∧
  (∀ name presents,
     FileStore.get_presents name s = None →
     FileStore._presents
       (FileStore.delete_presents name
          (FileStore.upsert_presents name presents s))
     = FileStore._presents s).
Proof.
  split_and!.
  - intros user s'. split_and!; [apply lookup_insert_eq| |done].
    intros k Hk. by apply lookup_insert_ne.
  - intros name presents s'. split_and!; [apply lookup_insert_eq| |done].
    intros k Hk. by apply lookup_insert_ne.
  - intros user1 user2 Hname.
    unfold FileStore.upsert_user, FileStore._save_users. cbn.
    by rewrite Hname, insert_insert_eq.
  - intros name presents1 presents2. apply upsert_upsert_presents.
  - intros user Hnone. unfold FileStore.delete_user, FileStore.get_user in *.
    cbn. rewrite decide_True by (rewrite lookup_insert_eq; by eexists).
    cbn. by rewrite delete_insert_eq, delete_id.
  - intros name presents Hnone.
    unfold FileStore.delete_presents, FileStore.get_presents in *.
    cbn. rewrite decide_True by (rewrite lookup_insert_eq; by eexists).
    cbn. by rewrite delete_insert_eq, delete_id.
Qed.

Lemma upsert_then_get_carol :
  FileStore.get_presents "carol" sample_store = None ∧
  FileStore._presents
    (FileStore.delete_presents "carol"
       (FileStore.upsert_presents "carol" [bike] sample_store))
  = FileStore._presents sample_store.
Proof.
  split; [reflexivity|].
  by apply (upsert_then_get sample_store).
Defined.

(** ** Gift views *)

(** X18.  A gift view holds the whole present: turning a present into its
    gift view and back gives the present, and the other way round; a wish
    view together with the gifters it leaves out gives the present back
    too.  So for a user with a present list the gift list is answered
    without writing, the presents stored can be rebuilt from it, and the
    wish list is the gift list with [assigned_to] left out, entry by
    entry. *)
Theorem gift_view_round_trip :
  (∀ p,
     PresentGiftData_to_present (Present_to_present_gift_response p) = p) ∧
  (∀ g,
     Present_to_present_gift_response (PresentGiftData_to_present g) = g) ∧
  (∀ p,
     PresentWishData_to_present (Present_to_present_wish_response p)
       (PresentGiftData.assigned_to (Present_to_present_gift_response p))
     = p) ∧
  (∀ user s presents,
     FileStore.get_presents user s = Some presents →
     ∃ gifts wishes,
       get_user_present_gift_list user s = (Return gifts, s) ∧
       get_user_present_wish_list user s = (Return wishes, s) ∧
       PresentGiftData_to_present <$> gifts = presents ∧
       (Present_to_present_wish_response ∘ PresentGiftData_to_present)
         <$> gifts = wishes ∧
       length gifts = length presents ∧ length wishes = length presents).
Proof.
  split_and!; [by intros []..|].
  intros user s presents Hp.
  destruct (read_back _ _ _ Hp) as [Hwish Hgift].
  eexists _, _. split; [done|]. split; [done|].
  unfold wish_views. rewrite !length_fmap. split_and!; [|.. |done|done].
  - rewrite <- list_fmap_compose. rewrite <- (list_fmap_id presents) at 2.
    apply list_fmap_ext. by intros i [].
  - rewrite <- list_fmap_compose. apply list_fmap_ext. by intros i [].
Qed.

Lemma gift_view_round_trip_alice :
  ∃ gifts wishes,
    get_user_present_gift_list "alice" sample_store
    = (Return gifts, sample_store) ∧
    get_user_present_wish_list "alice" sample_store
    = (Return wishes, sample_store) ∧
    PresentGiftData_to_present <$> gifts = [book; bike].
Proof.
  destruct gift_view_round_trip as (_ & _ & _ & Hlist).
  destruct (Hlist "alice" sample_store [book; bike])
    as (gifts & wishes & H1 & H2 & H3 & _); [reflexivity|].
  by exists gifts, wishes.
Defined.

(** ** Requests about different users *)

(** What a request about a user's list answers and writes is decided by
    that user's record and list alone. *)
Lemma handle_local r user s1 s2 :
  owner_of r = Some user →
  FileStore.get_user user s1 = FileStore.get_user user s2 →
  FileStore.get_presents user s1 = FileStore.get_presents user s2 →
  (handle r s1).1 = (handle r s2).1 ∧
  ∃ record presents,
    (handle r s1).2 = apply_edit user record presents s1 ∧
    (handle r s2).2 = apply_edit user record presents s2 ∧
    ∀ w, record = Some w →
         ∃ w0, FileStore.get_user user s1 = Some w0 ∧
               User.name w = User.name w0.
Proof.
  intros Howner Hu Hp.
  assert (∀ (o : outcome response) (s1' s2' : FileStore.t),
    s1' = s1 → s2' = s2 →
    o = o ∧
    ∃ record presents,
      s1' = apply_edit user record presents s1 ∧
      s2' = apply_edit user record presents s2 ∧
      ∀ w, record = Some w →
           ∃ w0, FileStore.get_user user s1 = Some w0 ∧
                 User.name w = User.name w0) as Hquiet.
  { intros o s1' s2' -> ->. split; [done|]. by exists None, None. }
  assert (∀ (o : outcome response) presents,
    o = o ∧
    ∃ record presents',
      FileStore.upsert_presents user presents s1
      = apply_edit user record presents' s1 ∧
      FileStore.upsert_presents user presents s2
      = apply_edit user record presents' s2 ∧
      ∀ w, record = Some w →
           ∃ w0, FileStore.get_user user s1 = Some w0 ∧
                 User.name w = User.name w0) as Hlist.
  { intros o presents. split; [done|]. by exists None, (Some presents). }
  destruct r as [| |u|u d|u present_id d|u present_id|u
                 |gifter u present_id|gifter u present_id];
    try done; injection Howner as ->; unfold handle;
    match goal with
    | |- context [mbind _ ?op] =>
        destruct (handle_state op
                    (λ v, ltac:(first [exact (WishList v)
                                      | exact (GiftList v)])) s1)
          as [-> ->];
        destruct (handle_state op
                    (λ v, ltac:(first [exact (WishList v)
                                      | exact (GiftList v)])) s2)
          as [-> ->]
    end.
  - unfold get_user_present_wish_list. run_service. rewrite Hp.
    destruct (FileStore.get_presents user s2); cbn [fst snd]; by apply Hquiet.
  - destruct (FileStore.get_user user s2) as [wish_user|] eqn:Hu2.
    + destruct (FileStore.get_presents user s2) as [presents|] eqn:Hp2.
      * rewrite (create_present_found _ d _ _ _ Hu Hp).
        rewrite (create_present_found _ d _ _ _ Hu2 Hp2). cbn.
        split; [done|]. eexists (Some _), (Some _).
        split; [done|]. split; [done|].
        intros w [= <-]. by exists wish_user.
      * rewrite (create_present_no_list _ d _ _ Hu Hp).
        rewrite (create_present_no_list _ d _ _ Hu2 Hp2). cbn.
        split; [done|]. eexists (Some _), None.
        split; [done|]. split; [done|].
        intros w [= <-]. by exists wish_user.
    + rewrite (create_present_no_user _ d _ Hu).
      rewrite (create_present_no_user _ d _ Hu2).
        cbn [fst snd]; by apply Hquiet.
  - destruct (FileStore.get_presents user s2) as [presents|] eqn:Hp2.
    + destruct (first_with_id present_id presents) as [[i q]|] eqn:Hf.
      * rewrite (update_present_found _ _ d _ _ _ _ Hp Hf).
        rewrite (update_present_found _ _ d _ _ _ _ Hp2 Hf).
        cbn [fst snd]; by apply Hlist.
      * unfold update_present. run_service.
        rewrite (find_present_missing _ _ _ _ Hp Hf).
        rewrite (find_present_missing _ _ _ _ Hp2 Hf).
        cbn [fst snd]; by apply Hquiet.
    + unfold update_present. run_service.
      rewrite (find_present_no_list _ _ _ Hp).
      rewrite (find_present_no_list _ _ _ Hp2).
        cbn [fst snd]; by apply Hquiet.
  - destruct (FileStore.get_presents user s2) as [presents|] eqn:Hp2.
    + destruct (first_with_id present_id presents) as [[i q]|] eqn:Hf.
      * rewrite (delete_present_found _ _ _ _ _ _ Hp Hf).
        rewrite (delete_present_found _ _ _ _ _ _ Hp2 Hf).
        cbn [fst snd]; by apply Hlist.
      * unfold delete_present. run_service.
        rewrite (find_present_missing _ _ _ _ Hp Hf).
        rewrite (find_present_missing _ _ _ _ Hp2 Hf).
        cbn [fst snd]; by apply Hquiet.
    + unfold delete_present. run_service.
      rewrite (find_present_no_list _ _ _ Hp).
      rewrite (find_present_no_list _ _ _ Hp2).
        cbn [fst snd]; by apply Hquiet.
  - unfold get_user_present_gift_list. run_service. rewrite Hp.
    destruct (FileStore.get_presents user s2); cbn [fst snd]; by apply Hquiet.
  - destruct (FileStore.get_presents user s2) as [presents|] eqn:Hp2.
    + destruct (first_with_id present_id presents) as [[i q]|] eqn:Hf.
      * rewrite (assign_user_found _ _ gifter _ _ _ _ Hp Hf).
        rewrite (assign_user_found _ _ gifter _ _ _ _ Hp2 Hf).
        destruct (decide (gifter ∈ Present.assigned_to q));
          [cbn [fst snd]; by apply Hquiet|cbn [fst snd]; by apply Hlist].
      * unfold assign_user_to_present. run_service.
        rewrite (find_present_missing _ _ _ _ Hp Hf).
        rewrite (find_present_missing _ _ _ _ Hp2 Hf).
        cbn [fst snd]; by apply Hquiet.
    + unfold assign_user_to_present. run_service.
      rewrite (find_present_no_list _ _ _ Hp).
      rewrite (find_present_no_list _ _ _ Hp2).
        cbn [fst snd]; by apply Hquiet.
  - destruct (FileStore.get_presents user s2) as [presents|] eqn:Hp2.
    + destruct (first_with_id present_id presents) as [[i q]|] eqn:Hf.
      * rewrite (remove_user_found _ _ gifter _ _ _ _ Hp Hf).
        rewrite (remove_user_found _ _ gifter _ _ _ _ Hp2 Hf).
        destruct (decide (gifter ∈ Present.assigned_to q));
          [cbn [fst snd]; by apply Hlist|cbn [fst snd]; by apply Hquiet].
      * unfold remove_user_from_present. run_service.
        rewrite (find_present_missing _ _ _ _ Hp Hf).
        rewrite (find_present_missing _ _ _ _ Hp2 Hf).
        cbn [fst snd]; by apply Hquiet.
    + unfold remove_user_from_present. run_service.
      rewrite (find_present_no_list _ _ _ Hp).
      rewrite (find_present_no_list _ _ _ Hp2).
        cbn [fst snd]; by apply Hquiet.
Qed.

Lemma apply_edit_reads user record presents s k :
  k ≠ user → (∀ w, record = Some w → User.name w = user) →
  FileStore.get_user k (apply_edit user record presents s)
  = FileStore.get_user k s ∧
  FileStore.get_presents k (apply_edit user record presents s)
  = FileStore.get_presents k s.
Proof.
  intros Hk Hname. unfold apply_edit, FileStore.get_user,
    FileStore.get_presents.
  destruct record as [w|], presents as [ps|]; cbn;
    try rewrite (Hname w eq_refl); by rewrite ?lookup_insert_ne.
Qed.

Lemma store_eq (s1 s2 : FileStore.t) :
  FileStore._users s1 = FileStore._users s2 →
  FileStore._presents s1 = FileStore._presents s2 →
  FileStore.users_yml s1 = FileStore.users_yml s2 →
  FileStore.presents_yml s1 = FileStore.presents_yml s2 →
  s1 = s2.
Proof. destruct s1, s2. cbn. by intros -> -> -> ->. Qed.

(** The four tables after the writes of one request. *)
Lemma apply_edit_tables user record presents s :
  (∀ w, record = Some w → User.name w = user) →
  let users' :=
    from_option (λ w, <[user := w]> (FileStore._users s))
      (FileStore._users s) record in
  let presents' :=
    from_option (λ ps, <[user := ps]> (FileStore._presents s))
      (FileStore._presents s) presents in
  FileStore._users (apply_edit user record presents s) = users' ∧
  FileStore._presents (apply_edit user record presents s) = presents' ∧
  FileStore.users_yml (apply_edit user record presents s)
  = from_option (λ _, users') (FileStore.users_yml s) record ∧
  FileStore.presents_yml (apply_edit user record presents s)
  = from_option (λ _, presents') (FileStore.presents_yml s) presents.
Proof.
  intros Hname. unfold apply_edit.
  destruct record as [w|], presents as [ps|]; cbn;
    try rewrite (Hname w eq_refl); by rewrite ?insert_insert_eq.
Qed.

Lemma apply_edit_commute user1 user2 record1 presents1 record2 presents2 s :
  user1 ≠ user2 →
  (∀ w, record1 = Some w → User.name w = user1) →
  (∀ w, record2 = Some w → User.name w = user2) →
  apply_edit user2 record2 presents2 (apply_edit user1 record1 presents1 s)
  = apply_edit user1 record1 presents1
      (apply_edit user2 record2 presents2 s).
Proof.
  intros Hne Hname1 Hname2.
  destruct (apply_edit_tables user1 record1 presents1 s Hname1)
    as (Hu1 & Hp1 & Huf1 & Hpf1).
  destruct (apply_edit_tables user2 record2 presents2 s Hname2)
    as (Hu2 & Hp2 & Huf2 & Hpf2).
  destruct (apply_edit_tables user2 record2 presents2
              (apply_edit user1 record1 presents1 s) Hname2)
    as (Hu21 & Hp21 & Huf21 & Hpf21).
  destruct (apply_edit_tables user1 record1 presents1
              (apply_edit user2 record2 presents2 s) Hname1)
    as (Hu12 & Hp12 & Huf12 & Hpf12).
  apply store_eq.
  - rewrite Hu21, Hu12, Hu1, Hu2.
    destruct record1, record2; cbn; [|done..].
    by apply insert_insert_ne.
  - rewrite Hp21, Hp12, Hp1, Hp2.
    destruct presents1, presents2; cbn; [|done..].
    by apply insert_insert_ne.
  - rewrite Huf21, Huf12, Hu1, Hu2, Huf1, Huf2.
    destruct record1, record2; cbn; [|done..].
    by apply insert_insert_ne.
  - rewrite Hpf21, Hpf12, Hp1, Hp2, Hpf1, Hpf2.
    destruct presents1, presents2; cbn; [|done..].
    by apply insert_insert_ne.
Qed.

(** X19.  Requests about the lists of two different users do not get in
    each other's way.  In a store whose users are filed under their own
    name, each of the two is answered the same whether it is served
    before or after the other, and the store is the same whichever is
    served first. *)
Theorem requests_about_different_users_commute r1 r2 user1 user2 s :
  owner_of r1 = Some user1 → owner_of r2 = Some user2 →
  user1 ≠ user2 → named_by_key s →
  (handle r2 (handle r1 s).2).1 = (handle r2 s).1 ∧
  (handle r1 (handle r2 s).2).1 = (handle r1 s).1 ∧
  (handle r2 (handle r1 s).2).2 = (handle r1 (handle r2 s).2).2.
Proof.
  intros Ho1 Ho2 Hne Hnames.
  assert (∀ user (w w0 : User.t),
    FileStore.get_user user s = Some w0 → User.name w = User.name w0 →
    User.name w = user) as Hkey.
  { intros user w w0 Hw0 ->. by apply Hnames in Hw0. }
  destruct (handle_local r1 user1 s s Ho1 eq_refl eq_refl)
    as (_ & rec1 & ps1 & Hs1 & _ & Hn1).
  destruct (handle_local r2 user2 s s Ho2 eq_refl eq_refl)
    as (_ & rec2 & ps2 & Hs2 & _ & Hn2).
  assert (∀ w, rec1 = Some w → User.name w = user1) as Hname1.
  { intros w Hw. destruct (Hn1 w Hw) as (w0 & Hw0 & Heq). by eapply Hkey. }
  assert (∀ w, rec2 = Some w → User.name w = user2) as Hname2.
  { intros w Hw. destruct (Hn2 w Hw) as (w0 & Hw0 & Heq). by eapply Hkey. }
  destruct (apply_edit_reads user1 rec1 ps1 s user2) as [Hu21 Hp21];
    [done..|].
  destruct (apply_edit_reads user2 rec2 ps2 s user1) as [Hu12 Hp12];
    [done..|].
  rewrite <- Hs1 in Hu21, Hp21. rewrite <- Hs2 in Hu12, Hp12.
  destruct (handle_local r2 user2 _ s Ho2 Hu21 Hp21)
    as (Ha2 & rec2' & ps2' & Hs21 & Hs2' & Hn2').
  destruct (handle_local r1 user1 _ s Ho1 Hu12 Hp12)
    as (Ha1 & rec1' & ps1' & Hs12 & Hs1' & Hn1').
  split; [done|]. split; [done|].
  rewrite Hs21, Hs12, Hs1', Hs2'. apply apply_edit_commute; [done|..].
  - intros w Hw. destruct (Hn1' w Hw) as (w0 & Hw0 & Heq).
    rewrite Hu12 in Hw0. by eapply Hkey.
  - intros w Hw. destruct (Hn2' w Hw) as (w0 & Hw0 & Heq).
    rewrite Hu21 in Hw0. by eapply Hkey.
Qed.

Lemma requests_about_different_users_commute_sample :
  named_by_key sample_store ∧
  (handle (Create_present "bob" book_payload)
     (handle (Delete_present "alice" 1) sample_store).2).2
  = (handle (Delete_present "alice" 1)
       (handle (Create_present "bob" book_payload) sample_store).2).2.
Proof.
  assert (named_by_key sample_store) as Hnames.
  { apply (bool_decide_unpack _). by vm_compute. }
  split; [done|].
  by apply (requests_about_different_users_commute
              (Delete_present "alice" 1) (Create_present "bob" book_payload)
              "alice" "bob" sample_store).
Defined.

(** ** The errors a request can end in *)

Lemma first_with_id_None present_id (presents : list Present.t) :
  first_with_id present_id presents = None →
  present_id ∉ (Present.id <$> presents).
Proof.
  intros Hf (q & -> & Hq)%list_elem_of_fmap.
  apply list_find_None in Hf. rewrite Forall_forall in Hf.
  by apply (Hf q).
Qed.

(** X20.  A request that raises ends in one of four ways, and in no
    other: the not-found error of users, from the three reading routes
    when the record or the list read is missing; the not-found error of
    presents, from the four routes that look a present up ([looked_up]),
    when the owner has a list and no present of it has the id asked for;
    [TypeError], from those four routes when the owner has no list; [AttributeError], from a
    creation when the owner has no record or no list.  The list
    operations behind the routes ([list.index], indexing, [del],
    [list.remove]) never raise. *)
Theorem errors_of_requests r s e :
  (handle r s).1 = Raise e →
  e ≠ IndexError ∧ e ≠ ValueError ∧
  ((∃ user,
      e = UserNotFound user ∧
      (r = Get_user user ∧ FileStore.get_user user s = None ∨
       (r = Get_present_wish_list user ∨ r = Get_present_gift_list user) ∧
       FileStore.get_presents user s = None)) ∨
   (∃ user present_id presents,
      e = PresentNotFound user present_id ∧ owner_of r = Some user ∧
      is_create r = false ∧
      FileStore.get_presents user s = Some presents ∧
      (present_id ∉ Present.id <$> presents) ∧
      looked_up r = Some (user, present_id)) ∨
   (e = TypeError ∧ is_create r = false ∧
    ∃ user, owner_of r = Some user ∧
            FileStore.get_presents user s = None ∧
            ∃ present_id, looked_up r = Some (user, present_id)) ∨
   (e = AttributeError ∧
    ∃ user present_data,
      r = Create_present user present_data ∧
      (FileStore.get_user user s = None ∨
       FileStore.get_presents user s = None))).
Proof.
  assert (∀ user present_id presents,
    owner_of r = Some user → is_create r = false →
    looked_up r = Some (user, present_id) →
    FileStore.get_presents user s = Some presents →
    first_with_id present_id presents = None →
    ∀ e', e' = PresentNotFound user present_id →
    e' ≠ IndexError ∧ e' ≠ ValueError ∧
    ((∃ user,
        e' = UserNotFound user ∧
        (r = Get_user user ∧ FileStore.get_user user s = None ∨
         (r = Get_present_wish_list user ∨ r = Get_present_gift_list user) ∧
         FileStore.get_presents user s = None)) ∨
     (∃ user present_id presents,
        e' = PresentNotFound user present_id ∧ owner_of r = Some user ∧
        is_create r = false ∧
        FileStore.get_presents user s = Some presents ∧
        (present_id ∉ Present.id <$> presents) ∧
        looked_up r = Some (user, present_id)) ∨
     (e' = TypeError ∧ is_create r = false ∧
      ∃ user, owner_of r = Some user ∧
              FileStore.get_presents user s = None ∧
              ∃ present_id, looked_up r = Some (user, present_id)) ∨
     (e' = AttributeError ∧
      ∃ user present_data,
        r = Create_present user present_data ∧
        (FileStore.get_user user s = None ∨
         FileStore.get_presents user s = None)))) as Hmissing.
  { intros user present_id presents Ho Hc Hl Hp Hf e' ->.
    split; [done|]. split; [done|]. right; left.
    exists user, present_id, presents. split_and!; [done..| |done].
    by apply first_with_id_None. }
  destruct r as [|user|user|user d|user present_id d|user present_id|user
                 |gifter user present_id|gifter user present_id];
    unfold handle;
    match goal with
    | |- context [mbind _ ?op] =>
        destruct (handle_state op
                    (λ v, ltac:(first [exact (UserList v) | exact (UserView v)
                                      | exact (WishList v)
                                      | exact (GiftList v)])) s)
          as [_ ->]
    end.
  - done.
  - unfold get_user_data. run_service.
    destruct (FileStore.get_user user s) eqn:Hu; cbn; [done|].
    intros [= <-]. split; [done|]. split; [done|]. left. exists user.
    split; [done|]. by left.
  - unfold get_user_present_wish_list. run_service.
    destruct (FileStore.get_presents user s) eqn:Hp; cbn; [done|].
    intros [= <-]. split; [done|]. split; [done|]. left. exists user.
    split; [done|]. right. split; [by left|done].
  - destruct (FileStore.get_user user s) as [wish_user|] eqn:Hu.
    + destruct (FileStore.get_presents user s) as [presents|] eqn:Hp.
      * by rewrite (create_present_found _ d _ _ _ Hu Hp).
      * rewrite (create_present_no_list _ d _ _ Hu Hp). cbn.
        intros [= <-]. split; [done|]. split; [done|]. do 3 right.
        split; [done|]. exists user, d. split; [done|]. by right.
    + rewrite (create_present_no_user _ d _ Hu). cbn.
      intros [= <-]. split; [done|]. split; [done|]. do 3 right.
      split; [done|]. exists user, d. split; [done|]. by left.
  - destruct (FileStore.get_presents user s) as [presents|] eqn:Hp.
    + destruct (first_with_id present_id presents) as [[i q]|] eqn:Hf.
      * by rewrite (update_present_found _ _ d _ _ _ _ Hp Hf).
      * unfold update_present. run_service.
        rewrite (find_present_missing _ _ _ _ Hp Hf). cbn.
        intros [= <-]. by eapply Hmissing.
    + unfold update_present. run_service.
      rewrite (find_present_no_list _ _ _ Hp). cbn.
      intros [= <-]. split; [done|]. split; [done|]. do 2 right. left.
      split; [done|]. split; [done|]. exists user.
      split_and!; [done..|]. by exists present_id.
  - destruct (FileStore.get_presents user s) as [presents|] eqn:Hp.
    + destruct (first_with_id present_id presents) as [[i q]|] eqn:Hf.
      * by rewrite (delete_present_found _ _ _ _ _ _ Hp Hf).
      * unfold delete_present. run_service.
        rewrite (find_present_missing _ _ _ _ Hp Hf). cbn.
        intros [= <-]. by eapply Hmissing.
    + unfold delete_present. run_service.
      rewrite (find_present_no_list _ _ _ Hp). cbn.
      intros [= <-]. split; [done|]. split; [done|]. do 2 right. left.
      split; [done|]. split; [done|]. exists user.
      split_and!; [done..|]. by exists present_id.
  - unfold get_user_present_gift_list. run_service.
    destruct (FileStore.get_presents user s) eqn:Hp; cbn; [done|].
    intros [= <-]. split; [done|]. split; [done|]. left. exists user.
    split; [done|]. right. split; [by right|done].
  - destruct (FileStore.get_presents user s) as [presents|] eqn:Hp.
    + destruct (first_with_id present_id presents) as [[i q]|] eqn:Hf.
      * rewrite (assign_user_found _ _ gifter _ _ _ _ Hp Hf).
        by destruct (decide (gifter ∈ Present.assigned_to q)).
      * unfold assign_user_to_present. run_service.
        rewrite (find_present_missing _ _ _ _ Hp Hf). cbn.
        intros [= <-]. by eapply Hmissing.
    + unfold assign_user_to_present. run_service.
      rewrite (find_present_no_list _ _ _ Hp). cbn.
      intros [= <-]. split; [done|]. split; [done|]. do 2 right. left.
      split; [done|]. split; [done|]. exists user.
      split_and!; [done..|]. by exists present_id.
  - destruct (FileStore.get_presents user s) as [presents|] eqn:Hp.
    + destruct (first_with_id present_id presents) as [[i q]|] eqn:Hf.
      * rewrite (remove_user_found _ _ gifter _ _ _ _ Hp Hf).
        by destruct (decide (gifter ∈ Present.assigned_to q)).
      * unfold remove_user_from_present. run_service.
        rewrite (find_present_missing _ _ _ _ Hp Hf). cbn.
        intros [= <-]. by eapply Hmissing.
    + unfold remove_user_from_present. run_service.
      rewrite (find_present_no_list _ _ _ Hp). cbn.
      intros [= <-]. split; [done|]. split; [done|]. do 2 right. left.
      split; [done|]. split; [done|]. exists user.
      split_and!; [done..|]. by exists present_id.
Qed.

Lemma errors_of_requests_carol :
  (handle (Delete_present "carol" 1) sample_store).1 = Raise TypeError ∧
  TypeError ≠ IndexError ∧ TypeError ≠ ValueError.
Proof.
  split; [reflexivity|].
  destruct (errors_of_requests (Delete_present "carol" 1) sample_store
              TypeError) as (H1 & H2 & _); [reflexivity|].
  by split.
Defined.

(** ** Several gifters *)

(** X21.  Gifters are listed in the order in which they reserved: when
    gifters who are not yet assigned to a present, no two of them the
    same, assign themselves one after the other, the present's
    [assigned_to] is afterwards the list it was followed by their names in
    that order; nothing else in the owner's list changes. *)
Theorem assignments_accumulate user present_id gifters s presents i q :
  FileStore.get_presents user s = Some presents →
  first_with_id present_id presents = Some (i, q) →
  NoDup gifters →
  (∀ gifter, gifter ∈ gifters → gifter ∉ Present.assigned_to q) →
  FileStore.get_presents user
    (serve_all
       ((λ gifter, Assign_user_to_present gifter user present_id)
          <$> gifters) s)
  = Some (<[i := Present_set_assigned_to q
                    (Present.assigned_to q ++ gifters)]> presents).
Proof.
  intros Hp Hf Hnd. revert s presents q Hp Hf.
  induction Hnd as [|g gifters Hg Hnd IH]; intros s presents q Hp Hf Hnew.
  { pose proof (first_with_id_lookup _ _ _ _ Hf) as (Hi & _ & _). cbn.
    by rewrite app_nil_r, set_own_assigned_to, (list_insert_id _ _ _ Hi). }
  pose proof (first_with_id_lookup _ _ _ _ Hf) as (Hi & Hid & _).
  assert (g ∉ Present.assigned_to q) as Hgq by (apply Hnew; by left).
  cbn [fmap list_fmap serve_all].
  change (list_fmap _ _ ?f gifters) with (f <$> gifters).
  unfold handle at 1.
  destruct (handle_state (assign_user_to_present user present_id g)
              GiftList s) as [-> _].
  rewrite (assign_user_found _ _ g _ _ _ _ Hp Hf).
  rewrite decide_False by done. cbn [snd].
  erewrite IH;
    [|apply get_presents_upsert|by eapply first_with_id_insert|].
  - cbn [Present.assigned_to Present_set_assigned_to].
    rewrite list_insert_insert_eq, <- app_assoc. done.
  - intros g' Hg'. cbn. rewrite not_elem_of_app. split.
    + apply Hnew. by right.
    + intros ->%list_elem_of_singleton. done.
Qed.

Lemma assignments_accumulate_bike :
  FileStore.get_presents "alice"
    (serve_all
       [Assign_user_to_present "carol" "alice" 2;
        Assign_user_to_present "bob" "alice" 2] sample_store)
  = Some [book; Present_set_assigned_to bike ["carol"; "bob"]].
Proof.
  apply (assignments_accumulate "alice" 2 ["carol"; "bob"] sample_store
           [book; bike] 1 bike); [reflexivity..| |].
  - apply (bool_decide_unpack _). by vm_compute.
  - intros gifter _. apply not_elem_of_nil.
Defined.
